(** * Oil Record Book tool: configuration profiles and application factory

    A shallow embedding of [src/config.py] and [src/app.py].

    - Python values relevant to the settings are a small tagged union;
      list and dict objects live in a store and are reached through
      references, so that sharing between class attributes and the
      per-application settings dictionaries is visible.
    - Module execution and the factory are written in a state and
      exception monad over that store, the process environment and the
      database.
    - A character is a code point below 256, and a string a sequence of
      such characters; [py_int], [str_lower], [str_split] and
      [str_isupper] follow the Python built-ins on such text.  Text with
      other characters is outside the model. *)

From Stdlib Require Import Ascii String.
From Stdlib Require Import DecimalString DecimalZ DecimalPos DecimalFacts.
From stdpp Require Import base option numbers list strings gmap.

Local Open Scope string_scope.
Local Open Scope Z_scope.

(** ** Python built-ins on text *)

Module Py.

Definition code (c : ascii) : nat := nat_of_ascii c.

(** Characters that [int] skips around a number: TAB..CR, the space,
    and the two blanks above 127, NEL and the no-break space.  (The
    separators FS..US are blanks for [str.strip] but not for [int].) *)
Definition is_space (c : ascii) : bool :=
  let n := code c in
  ((9 <=? n)%nat && (n <=? 13)%nat) || (n =? 32)%nat
  || (n =? 133)%nat || (n =? 160)%nat.

Definition is_digit (c : ascii) : bool :=
  let n := code c in (48 <=? n)%nat && (n <=? 57)%nat.

(** Upper-case letters: A..Z, and the accented capitals 192..222 but
    for the multiplication sign. *)
Definition is_upper (c : ascii) : bool :=
  let n := code c in
  ((65 <=? n)%nat && (n <=? 90)%nat)
  || ((192 <=? n)%nat && (n <=? 222)%nat && negb (n =? 215)%nat).

(** Lower-case letters: a..z, the ordinal indicators and the micro
    sign, and the small letters 223..255 but for the division sign. *)
Definition is_lower (c : ascii) : bool :=
  let n := code c in
  ((97 <=? n)%nat && (n <=? 122)%nat)
  || (n =? 170)%nat || (n =? 181)%nat || (n =? 186)%nat
  || ((223 <=? n)%nat && (n <=? 255)%nat && negb (n =? 247)%nat).

Definition digit_val (c : ascii) : Z := Z.of_nat (code c - 48).

Definition lower_char (c : ascii) : ascii :=
  if is_upper c then ascii_of_nat (code c + 32) else c.

(** [s.lower()] *)
Fixpoint str_lower (s : string) : string :=
  match s with
  | EmptyString => EmptyString
  | String c r => String (lower_char c) (str_lower r)
  end.

(** [s.isupper()]: at least one cased character, and no lower-case one. *)
Fixpoint has_upper (s : string) : bool :=
  match s with
  | EmptyString => false
  | String c r => is_upper c || has_upper r
  end.

Fixpoint has_lower (s : string) : bool :=
  match s with
  | EmptyString => false
  | String c r => is_lower c || has_lower r
  end.

Definition str_isupper (s : string) : bool := has_upper s && negb (has_lower s).

(** [s.split(sep)] for a one-character separator. *)
Fixpoint str_split (sep : ascii) (s : string) : list string :=
  match s with
  | EmptyString => [EmptyString]
  | String c r =>
      if Ascii.eqb c sep then EmptyString :: str_split sep r
      else match str_split sep r with
           | h :: t => String c h :: t
           | [] => [String c EmptyString]
           end
  end.

(** [sep.join(l)] *)
Fixpoint str_join (sep : ascii) (l : list string) : string :=
  match l with
  | [] => EmptyString
  | [x] => x
  | x :: r => x ++ String sep (str_join sep r)
  end.

Fixpoint str_mem (c : ascii) (s : string) : bool :=
  match s with
  | EmptyString => false
  | String d r => Ascii.eqb d c || str_mem c r
  end.

(** Blanks are dropped on both sides before a number is read. *)
Fixpoint lstrip (s : string) : string :=
  match s with
  | String c r => if is_space c then lstrip r else s
  | EmptyString => EmptyString
  end.

Fixpoint rstrip (s : string) : string :=
  match s with
  | EmptyString => EmptyString
  | String c r =>
      match rstrip r with
      | EmptyString => if is_space c then EmptyString else String c EmptyString
      | r' => String c r'
      end
  end.

Definition strip (s : string) : string := rstrip (lstrip s).

(** Decimal digits, where one underscore may stand between two digits.
    [after_digit] tells whether the previous character was a digit. *)
Fixpoint int_digits (s : string) (acc : Z) (after_digit : bool) : option Z :=
  match s with
  | EmptyString => if after_digit then Some acc else None
  | String c r =>
      if is_digit c then int_digits r (10 * acc + digit_val c) true
      else if Ascii.eqb c "_" then
        if after_digit then int_digits r acc false else None
      else None
  end.

(** The number of decimal digits in a text. *)
Fixpoint digit_count (s : string) : Z :=
  match s with
  | EmptyString => 0
  | String c r => if is_digit c then 1 + digit_count r else digit_count r
  end.

(** [sys.int_info.default_max_str_digits]: [int] and [str] refuse a
    number written with more digits. *)
Definition int_max_str_digits : Z := 4300.

(** The digits after blanks and sign are gone. *)
Definition int_body (t : string) : option Z :=
  if int_max_str_digits <? digit_count t then None else int_digits t 0 false.

(** [int(s)] for text [s] in base ten; [None] stands for [ValueError]. *)
Definition py_int (s : string) : option Z :=
  match strip s with
  | String "-" r => Z.opp <$> int_body r
  | String "+" r => int_body r
  | t => int_body t
  end.

End Py.


(** ** Values, objects and the store *)

Definition loc := nat.

(** Immutable Python values are carried by value; list and dict objects
    are reached through a reference into the store. *)
Inductive value :=
| VNone
| VBool (b : bool)
| VInt (n : Z)
| VStr (s : string)
| VPath (p : string)
| VRef (l : loc).

Inductive obj :=
| OList (items : list value)
| ODict (entries : gmap string value).

Inductive exn :=
| ValueError
| OverflowError
| KeyError (key : string)
| AttributeError
| TypeError
| RuntimeError.

Inductive result (A : Type) :=
| Ok (a : A)
| Raise (e : exn).
Arguments Ok {A} a.
Arguments Raise {A} e.

(** [pathlib]: the text of [p / name], for [p] the text of a POSIX path
    and [name] one path segment.  The current directory "." is left
    out of the result, and the roots "/" and "//" already end in the
    separator. *)
Definition path_div (p name : string) : string :=
  if String.eqb p "." then name
  else if String.eqb p "/" || String.eqb p "//" then p ++ name
  else p ++ "/" ++ name.

(** ** Classes: a namespace per class body, looked up along the MRO *)

Definition namespace := list (string * value).

Fixpoint ns_lookup (k : string) (ns : namespace) : option value :=
  match ns with
  | [] => None
  | (k', v) :: r => if String.eqb k k' then Some v else ns_lookup k r
  end.

Record pyclass := {
  cls_name : string;
  cls_mro : list namespace
}.

Fixpoint mro_lookup (k : string) (mro : list namespace) : option value :=
  match mro with
  | [] => None
  | ns :: r => match ns_lookup k ns with
               | Some v => Some v
               | None => mro_lookup k r
               end
  end.

(** [getattr(cls, k)]; [None] stands for [AttributeError]. *)
Definition getattr (cls : pyclass) (k : string) : option value :=
  mro_lookup k (cls_mro cls).

(** [dir(cls)]: the names bound anywhere along the MRO (Python sorts them
    and drops repetitions, which no use below depends on). *)
Definition cls_dir (cls : pyclass) : list string :=
  List.concat (List.map (List.map fst) (cls_mro cls)).

(** ** Routes and blueprints *)

Inductive view :=
| RenderTemplate (template : string) (context : list (string * value))
| StaticFile
| BlueprintView (blueprint endpoint : string).

Record url_rule := {
  rule_path : string;
  rule_endpoint : string;
  rule_view : view;
  rule_login_required : bool
}.

(** [routes.api.api_bp] is not part of this development: a blueprint is
    its name and its rules (path, endpoint, whether the view is wrapped
    in [login_required]). *)
Record blueprint := {
  bp_name : string;
  bp_rules : list (string * string * bool)
}.

(** ** The persisted user model *)

(** [models.User]: only its integer primary key is used here. *)
Class UserModel (User : Type) := user_pk : User -> Z.

(** ** The process state *)

Record world (User : Type) := {
  environ : gmap string string;       (* os.environ, after load_dotenv() *)
  base_dir : string;                  (* str(Path(__file__).parent.parent) *)
  routes_api_bp : blueprint;          (* routes.api.api_bp *)
  heap : gmap loc obj;
  next_loc : loc;
  db_tables : gset string;            (* tables present in the database *)
  db_users : list User;               (* rows of the user table *)
  db_apps : list loc                  (* applications bound to models.db *)
}.
Arguments environ {User} w.
Arguments base_dir {User} w.
Arguments routes_api_bp {User} w.
Arguments heap {User} w.
Arguments next_loc {User} w.
Arguments db_tables {User} w.
Arguments db_users {User} w.
Arguments db_apps {User} w.

Section Model.
Context {User : Type} `{UserModel User}.

Definition with_heap (h : gmap loc obj) (n : loc) (w : world User) : world User :=
  {| environ := environ w; base_dir := base_dir w;
     routes_api_bp := routes_api_bp w;
     heap := h; next_loc := n;
     db_tables := db_tables w; db_users := db_users w; db_apps := db_apps w |}.

Definition with_db_apps (l : list loc) (w : world User) : world User :=
  {| environ := environ w; base_dir := base_dir w;
     routes_api_bp := routes_api_bp w;
     heap := heap w; next_loc := next_loc w;
     db_tables := db_tables w; db_users := db_users w; db_apps := l |}.

Definition with_db_tables (t : gset string) (w : world User) : world User :=
  {| environ := environ w; base_dir := base_dir w;
     routes_api_bp := routes_api_bp w;
     heap := heap w; next_loc := next_loc w;
     db_tables := t; db_users := db_users w; db_apps := db_apps w |}.

(** *** State and exception monad *)

Definition M (A : Type) : Type := world User -> result A * world User.

Definition ret {A} (a : A) : M A := fun w => (Ok a, w).

Definition raise {A} (e : exn) : M A := fun w => (Raise e, w).

Definition bind {A B} (c : M A) (k : A -> M B) : M B :=
  fun w => match c w with
           | (Ok a, w') => k a w'
           | (Raise e, w') => (Raise e, w')
           end.

End Model.

Notation "'do' x <- c ; k" := (bind c (fun x => k))
  (at level 10, x name, c at level 100, k at level 200,
   format "'[v' 'do'  x  <-  c ; '/' k ']'").
Notation "'run' c ; k" := (bind c (fun _ => k))
  (at level 10, c at level 100, k at level 200,
   format "'[v' 'run'  c ; '/' k ']'").

(** ** The application object *)

(** [flask_login.LoginManager]; the loader runs in the monad [M]. *)
Record login_manager (User : Type) := {
  login_view : option string;
  login_message : string;
  login_message_category : string;
  user_callback : option (string -> M (User:=User) (option User))
}.
Arguments login_view {User} l.
Arguments login_message {User} l.
Arguments login_message_category {User} l.
Arguments user_callback {User} l.

(** [flask.Flask]: the settings dictionary is an object of the store,
    the other registries are carried with the application. *)
Record app (User : Type) := {
  app_config : loc;
  template_folder : string;
  static_folder : string;
  extensions : list string;
  app_login_manager : option (login_manager User);
  blueprints : list (string * string);
  url_map : list url_rule
}.
Arguments app_config {User} a.
Arguments template_folder {User} a.
Arguments static_folder {User} a.
Arguments extensions {User} a.
Arguments app_login_manager {User} a.
Arguments blueprints {User} a.
Arguments url_map {User} a.

(** What a reader of a setting sees: the value itself, or the content
    of the object it refers to. *)
Inductive snapshot :=
| SValue (v : value)
| SList (items : list value)
| SDict (entries : gmap string value)
| SDangling.

Section Program.
Context {User : Type} `{UserModel User}.

Local Abbreviation M := (@M User).

(** *** Primitive operations *)

(** [os.environ.get(key, dflt)] *)
Definition environ_get (key dflt : string) : M string :=
  fun w => (Ok (default dflt (environ w !! key)), w).

(** [int(os.environ.get(key, dflt))] with an integer default: the text
    of the variable is parsed when it is set. *)
Definition environ_int (key : string) (dflt : Z) : M Z :=
  fun w => match environ w !! key with
           | None => (Ok dflt, w)
           | Some s => match Py.py_int s with
                       | Some n => (Ok n, w)
                       | None => (Raise ValueError, w)
                       end
           end.

Definition get_base_dir : M string := fun w => (Ok (base_dir w), w).

(** A new object is stored at the next free location. *)
Definition alloc (o : obj) : M loc :=
  fun w => (Ok (next_loc w),
            with_heap (<[next_loc w := o]> (heap w)) (S (next_loc w)) w).

Definition read_dict (l : loc) : M (gmap string value) :=
  fun w => match heap w !! l with
           | Some (ODict d) => (Ok d, w)
           | _ => (Raise TypeError, w)
           end.

Definition write_obj (l : loc) (o : obj) : M unit :=
  fun w => (Ok tt, with_heap (<[l := o]> (heap w)) (next_loc w) w).

(** [d[k]] *)
Definition dict_getitem (l : loc) (k : string) : M value :=
  do d <- read_dict l;
  match d !! k with
  | Some v => ret v
  | None => raise (KeyError k)
  end.

(** [d[k] = v] *)
Definition dict_setitem (l : loc) (k : string) (v : value) : M unit :=
  do d <- read_dict l;
  write_obj l (ODict (<[k := v]> d)).

(** [v.append(x)]: only list objects have the method. *)
Definition list_append (v x : value) : M unit :=
  match v with
  | VRef l =>
      fun w => match heap w !! l with
               | Some (OList xs) =>
                   (Ok tt, with_heap (<[l := OList (xs ++ [x])]> (heap w)) (next_loc w) w)
               | _ => (Raise AttributeError, w)
               end
  | _ => raise AttributeError
  end.

(** *** [config.py] *)

(** Body of [class Config]. *)
Definition Config_body : M namespace :=
  do BASE_DIR <- get_base_dir;
  do SECRET_KEY <- environ_get "SECRET_KEY" "dev-key-change-in-production";
  do SQLALCHEMY_DATABASE_URI <-
     environ_get "DATABASE_URL"
       ("sqlite:///" ++ path_div (path_div BASE_DIR "data") "orb.db");
  do RATELIMIT_STORAGE_URL <- environ_get "REDIS_URL" "memory://";
  do origins <- environ_get "CORS_ORIGINS"
                  "http://localhost:5001,https://localhost:5001";
  do CORS_ORIGINS <- alloc (OList (VStr <$> Py.str_split "," origins));
  do secure <- environ_get "SESSION_SECURE" "False";
  do LOG_LEVEL <- environ_get "LOG_LEVEL" "INFO";
  do json <- environ_get "LOG_JSON_FORMAT" "True";
  do LOG_MAX_BYTES <- environ_int "LOG_MAX_BYTES" (10 * 1024 * 1024);
  do LOG_BACKUP_COUNT <- environ_int "LOG_BACKUP_COUNT" 5;
  ret [ ("__module__", VStr "config");
        ("__doc__", VStr "Base configuration.");
        ("BASE_DIR", VPath BASE_DIR);
        ("SECRET_KEY", VStr SECRET_KEY);
        ("SQLALCHEMY_DATABASE_URI", VStr SQLALCHEMY_DATABASE_URI);
        ("SQLALCHEMY_TRACK_MODIFICATIONS", VBool false);
        ("SOUNDING_TABLES_PATH",
           VPath (path_div (path_div BASE_DIR "data") "sounding_tables.json"));
        ("WTF_CSRF_ENABLED", VBool true);
        ("WTF_CSRF_TIME_LIMIT", VInt 3600);
        ("MAX_CONTENT_LENGTH", VInt (16 * 1024 * 1024));
        ("RATELIMIT_STORAGE_URL", VStr RATELIMIT_STORAGE_URL);
        ("CORS_ORIGINS", VRef CORS_ORIGINS);
        ("SESSION_COOKIE_SECURE",
           VBool (String.eqb (Py.str_lower secure) "true"));
        ("SESSION_COOKIE_HTTPONLY", VBool true);
        ("SESSION_COOKIE_SAMESITE", VStr "Lax");
        ("LOG_LEVEL", VStr LOG_LEVEL);
        ("LOG_DIR", VPath (path_div BASE_DIR "logs"));
        ("LOG_JSON_FORMAT", VBool (String.eqb (Py.str_lower json) "true"));
        ("LOG_MAX_BYTES", VInt LOG_MAX_BYTES);
        ("LOG_BACKUP_COUNT", VInt LOG_BACKUP_COUNT) ].

(** Body of [class DevelopmentConfig(Config)]. *)
Definition DevelopmentConfig_body : M namespace :=
  do LOG_LEVEL <- environ_get "LOG_LEVEL" "DEBUG";
  do json <- environ_get "LOG_JSON_FORMAT" "False";
  ret [ ("__module__", VStr "config");
        ("__doc__", VStr "Development configuration.");
        ("DEBUG", VBool true);
        ("LOG_LEVEL", VStr LOG_LEVEL);
        ("LOG_JSON_FORMAT", VBool (String.eqb (Py.str_lower json) "true")) ].

(** Body of [class ProductionConfig(Config)]. *)
Definition ProductionConfig_body : M namespace :=
  do LOG_LEVEL <- environ_get "LOG_LEVEL" "INFO";
  ret [ ("__module__", VStr "config");
        ("__doc__", VStr "Production configuration.");
        ("DEBUG", VBool false);
        ("LOG_LEVEL", VStr LOG_LEVEL);
        ("LOG_JSON_FORMAT", VBool true) ].

(** Body of [class TestingConfig(Config)]. *)
Definition TestingConfig_body : M namespace :=
  ret [ ("__module__", VStr "config");
        ("__doc__", VStr "Testing configuration.");
        ("TESTING", VBool true);
        ("SQLALCHEMY_DATABASE_URI", VStr "sqlite:///:memory:");
        ("LOG_LEVEL", VStr "WARNING");
        ("LOG_JSON_FORMAT", VBool false) ].

(** The names bound by the module. *)
Record config_module := {
  Config : pyclass;
  DevelopmentConfig : pyclass;
  ProductionConfig : pyclass;
  TestingConfig : pyclass;
  config : gmap string pyclass
}.

(** Execution of the module, top to bottom. *)
Definition import_config : M config_module :=
  do base <- Config_body;
  do dev <- DevelopmentConfig_body;
  do prod <- ProductionConfig_body;
  do test <- TestingConfig_body;
  let Config := {| cls_name := "Config"; cls_mro := [base] |} in
  let DevelopmentConfig :=
    {| cls_name := "DevelopmentConfig"; cls_mro := [dev; base] |} in
  let ProductionConfig :=
    {| cls_name := "ProductionConfig"; cls_mro := [prod; base] |} in
  let TestingConfig :=
    {| cls_name := "TestingConfig"; cls_mro := [test; base] |} in
  ret {| Config := Config;
         DevelopmentConfig := DevelopmentConfig;
         ProductionConfig := ProductionConfig;
         TestingConfig := TestingConfig;
         config := <["development" := DevelopmentConfig]>
                   (<["production" := ProductionConfig]>
                   (<["testing" := TestingConfig]>
                   (<["default" := DevelopmentConfig]> ∅))) |}.

(** *** [app.py] *)

(** [int(text)] *)
Definition int_of_str (text : string) : M Z :=
  match Py.py_int text with
  | Some n => ret n
  | None => raise ValueError
  end.

(** The integers that SQLite stores: signed, 64 bits. *)
Definition sqlite_integer (n : Z) : bool :=
  (- 2 ^ 63 <=? n) && (n <? 2 ^ 63).

(** [User.query.get(n)] on the SQLite database that the configuration
    defaults to: the row with primary key [n], if any; a key that does
    not fit a 64-bit integer cannot be bound to the query, and the
    driver raises [OverflowError]. *)
Definition User_query_get (n : Z) : M (option User) :=
  fun w => if sqlite_integer n
           then (Ok (List.find (fun u => Z.eqb (user_pk u) n) (db_users w)), w)
           else (Raise OverflowError, w).

(** [db.create_all()]: creates the tables of the declared models.  The
    factory does not call it. *)
Definition db_create_all (model_tables : gset string) : M unit :=
  fun w => (Ok tt, with_db_tables (db_tables w ∪ model_tables) w).

(** [Flask(__name__, template_folder=..., static_folder=...)]: a new
    settings dictionary, and the rule that serves the static folder.
    The framework's built-in default settings, all immutable scalars,
    are left out: the dictionary holds what [from_object] copies. *)
Definition Flask_new (templates static : string) : M (app User) :=
  do cfg <- alloc (ODict ∅);
  ret {| app_config := cfg;
         template_folder := templates;
         static_folder := static;
         extensions := [];
         app_login_manager := None;
         blueprints := [];
         url_map := [ {| rule_path := "/static/<path:filename>";
                         rule_endpoint := "static";
                         rule_view := StaticFile;
                         rule_login_required := false |} ] |}.

(** [app.config.from_object(cls)]:
    [for key in dir(cls): if key.isupper(): self[key] = getattr(cls, key)] *)
Fixpoint from_object_keys (cfg : loc) (cls : pyclass) (keys : list string) : M unit :=
  match keys with
  | [] => ret tt
  | key :: rest =>
      run (if Py.str_isupper key then
             match getattr cls key with
             | Some v => dict_setitem cfg key v
             | None => raise AttributeError
             end
           else ret tt);
      from_object_keys cfg cls rest
  end.

Definition from_object (a : app User) (cls : pyclass) : M unit :=
  from_object_keys (app_config a) cls (cls_dir cls).

Definition add_extension (name : string) (a : app User) : app User :=
  {| app_config := app_config a; template_folder := template_folder a;
     static_folder := static_folder a;
     extensions := extensions a ++ [name];
     app_login_manager := app_login_manager a;
     blueprints := blueprints a; url_map := url_map a |}.

(** [db.init_app(app)]: needs a database address in the settings, then
    binds the application to the shared [db] object.  What the library
    does with the address itself (parsing it, loading its driver) and
    the settings it adds under names of its own are left out. *)
Definition db_init_app (a : app User) : M (app User) :=
  do d <- read_dict (app_config a);
  match d !! "SQLALCHEMY_DATABASE_URI", d !! "SQLALCHEMY_BINDS" with
  | None, None => raise RuntimeError
  | _, _ =>
      fun w => (Ok (add_extension "sqlalchemy" a),
                with_db_apps (db_apps w ++ [app_config a]) w)
  end.

(** [Migrate(app, db)] *)
Definition Migrate (a : app User) : M (app User) :=
  ret (add_extension "migrate" a).

(** [LoginManager()] *)
Definition LoginManager_new : login_manager User :=
  {| login_view := None;
     login_message := "Please log in to access this page.";
     login_message_category := "message";
     user_callback := None |}.

Definition set_login_manager (lm : login_manager User) (a : app User) : app User :=
  {| app_config := app_config a; template_folder := template_folder a;
     static_folder := static_folder a; extensions := extensions a;
     app_login_manager := Some lm;
     blueprints := blueprints a; url_map := url_map a |}.

(** [login_manager.init_app(app)]: the application refers to the manager
    from now on, so the assignments that follow are seen through it. *)
Definition LoginManager_init_app (lm : login_manager User) (a : app User) : M (app User) :=
  ret (set_login_manager lm a).

Definition with_login_manager
    (f : login_manager User -> login_manager User) (a : app User) : M (app User) :=
  match app_login_manager a with
  | Some lm => ret (set_login_manager (f lm) a)
  | None => raise AttributeError
  end.

Definition set_login_view (v : string) (lm : login_manager User) : login_manager User :=
  {| login_view := Some v; login_message := login_message lm;
     login_message_category := login_message_category lm;
     user_callback := user_callback lm |}.

Definition set_login_message (msg : string) (lm : login_manager User) : login_manager User :=
  {| login_view := login_view lm; login_message := msg;
     login_message_category := login_message_category lm;
     user_callback := user_callback lm |}.

Definition set_login_message_category (c : string) (lm : login_manager User)
    : login_manager User :=
  {| login_view := login_view lm; login_message := login_message lm;
     login_message_category := c;
     user_callback := user_callback lm |}.

(** [@login_manager.user_loader] *)
Definition user_loader (f : string -> M (option User)) (lm : login_manager User)
    : login_manager User :=
  {| login_view := login_view lm; login_message := login_message lm;
     login_message_category := login_message_category lm;
     user_callback := Some f |}.

(** [def load_user(user_id): return User.query.get(int(user_id))] *)
Definition load_user (user_id : string) : M (option User) :=
  do n <- int_of_str user_id;
  User_query_get n.

Definition add_url_rules (rules : list url_rule) (a : app User) : app User :=
  {| app_config := app_config a; template_folder := template_folder a;
     static_folder := static_folder a; extensions := extensions a;
     app_login_manager := app_login_manager a;
     blueprints := blueprints a; url_map := url_map a ++ rules |}.

Definition mounted_rule (bp : blueprint) (url_prefix : string)
    (r : string * string * bool) : url_rule :=
  let '(path, endpoint, guarded) := r in
  {| rule_path := url_prefix ++ path;
     rule_endpoint := bp_name bp ++ "." ++ endpoint;
     rule_view := BlueprintView (bp_name bp) endpoint;
     rule_login_required := guarded |}.

(** [from routes.api import api_bp;
     app.register_blueprint(api_bp, url_prefix=...)] *)
Definition register_blueprint (url_prefix : string) (a : app User) : M (app User) :=
  fun w =>
    let bp := routes_api_bp w in
    (Ok {| app_config := app_config a; template_folder := template_folder a;
           static_folder := static_folder a; extensions := extensions a;
           app_login_manager := app_login_manager a;
           blueprints := blueprints a ++ [(bp_name bp, url_prefix)];
           url_map := url_map a ++ List.map (mounted_rule bp url_prefix) (bp_rules bp) |},
     w).

(** [@app.route(path)] over a view that is [render_template(template)],
    with no other decorator. *)
Definition route (path endpoint template : string) (a : app User) : M (app User) :=
  ret (add_url_rules
         [ {| rule_path := path;
              rule_endpoint := endpoint;
              rule_view := RenderTemplate template [];
              rule_login_required := false |} ] a).

(** [config_name] as given, else [FLASK_ENV], else ["development"]. *)
Definition resolve_config_name (config_name : option string) : M string :=
  match config_name with
  | Some name => ret name
  | None => environ_get "FLASK_ENV" "development"
  end.

(** [config[config_name]] *)
Definition config_lookup (config : gmap string pyclass) (name : string) : M pyclass :=
  match config !! name with
  | Some cls => ret cls
  | None => raise (KeyError name)
  end.

(** The application factory; [config] is the dictionary imported from
    the configuration module. *)
Definition create_app (config : gmap string pyclass) (config_name : option string)
    : M (app User) :=
  do config_name <- resolve_config_name config_name;
  do a <- Flask_new "../templates" "../static";
  do cls <- config_lookup config config_name;
  run from_object a cls;
  do a <- db_init_app a;
  do a <- Migrate a;
  do a <- LoginManager_init_app LoginManager_new a;
  do a <- with_login_manager (set_login_view "auth.login") a;
  do a <- with_login_manager (set_login_message "Please log in to access this page.") a;
  do a <- with_login_manager (set_login_message_category "info") a;
  do a <- with_login_manager (user_loader load_user) a;
  do a <- register_blueprint "/api" a;
  do a <- route "/" "dashboard" "dashboard.html" a;
  do a <- route "/soundings" "weekly_soundings" "soundings.html" a;
  do a <- route "/history" "history" "history.html" a;
  do a <- route "/fuel" "fuel_tickets" "fuel.html" a;
  do a <- route "/new-hitch" "new_hitch" "new_hitch.html" a;
  ret a.

(** *** Observations used in the statements *)

Definition profile_names : list string :=
  ["development"; "production"; "testing"; "default"].

Definition int_var_ok (env : gmap string string) (key : string) : bool :=
  match env !! key with
  | None => true
  | Some s => bool_decide (is_Some (Py.py_int s))
  end.

(** The two integer settings are unset or readable as integers. *)
Definition env_ints_ok (env : gmap string string) : bool :=
  int_var_ok env "LOG_MAX_BYTES" && int_var_ok env "LOG_BACKUP_COUNT".

Definition observe (w : world User) (v : value) : snapshot :=
  match v with
  | VRef l => match heap w !! l with
              | Some (OList xs) => SList xs
              | Some (ODict d) => SDict d
              | None => SDangling
              end
  | _ => SValue v
  end.

(** [app.config.get(k)] as a reader sees it in [w]. *)
Definition settings (a : app User) (w : world User) (k : string) : option snapshot :=
  match heap w !! app_config a with
  | Some (ODict d) => observe w <$> d !! k
  | _ => None
  end.




(** An assignment of one environment variable: set to a text, or unset. *)
Definition assign_var (key : string) (v : option string)
    (env : gmap string string) : gmap string string :=
  match v with
  | Some s => <[key := s]> env
  | None => delete key env
  end.

Definition with_environ (env : gmap string string) (w : world User) : world User :=
  {| environ := env; base_dir := base_dir w;
     routes_api_bp := routes_api_bp w;
     heap := heap w; next_loc := next_loc w;
     db_tables := db_tables w; db_users := db_users w; db_apps := db_apps w |}.

(** A computation that leaves the set of tables as it found it,
    whether it returns or raises. *)
Definition keeps_tables {A} (c : M A) : Prop :=
  forall w, db_tables (snd (c w)) = db_tables w.

(** The module is imported, then the factory is called twice. *)
Definition two_apps (config_name : option string) : M (app User * app User) :=
  do m <- import_config;
  do a1 <- create_app (config m) config_name;
  do a2 <- create_app (config m) config_name;
  ret (a1, a2).

(** The module is imported, then the factory is called once. *)
Definition start_app (config_name : option string) : M (config_module * app User) :=
  do m <- import_config;
  do a <- create_app (config m) config_name;
  ret (m, a).

(** *** Closed forms of the two effects on the store *)

(** The list object that the class body of [Config] creates. *)
Definition cors_items (env : gmap string string) : list value :=
  VStr <$> Py.str_split ","
    (default "http://localhost:5001,https://localhost:5001" (env !! "CORS_ORIGINS")).

(** The process state once the configuration module is imported. *)
Definition import_world (w : world User) : world User :=
  with_heap (<[next_loc w := OList (cors_items (environ w))]> (heap w))
            (S (next_loc w)) w.

(** The dictionary that the loop of [from_object] builds from [d]. *)
Definition copy_settings (cls : pyclass) (keys : list string)
    (d : gmap string value) : gmap string value :=
  foldl (fun d key =>
           if Py.str_isupper key then
             match getattr cls key with
             | Some v => <[key := v]> d
             | None => d
             end
           else d) d keys.

(** The process state once the factory has built an application from
    the class [cls]. *)
Definition factory_world (cls : pyclass) (w : world User) : world User :=
  with_db_apps (db_apps w ++ [next_loc w])
    (with_heap (<[next_loc w := ODict (copy_settings cls (cls_dir cls) ∅)]> (heap w))
               (S (next_loc w)) w).

(** The process state when the factory stops at the profile lookup. *)
Definition flask_world (w : world User) : world User :=
  with_heap (<[next_loc w := ODict ∅]> (heap w)) (S (next_loc w)) w.

(** What a call of the factory in [w] shows when it went by the entry
    [name] of [config]: [KeyError name] when there is no such entry;
    otherwise, the class of that entry having a database address, an
    application whose settings hold every upper-case attribute of that
    class. *)
Definition uses_profile (config : gmap string pyclass) (name : string)
    (w : world User) (outcome : result (app User) * world User) : Prop :=
  match config !! name with
  | None => outcome = (Raise (KeyError name), flask_world w)
  | Some cls =>
      is_Some (getattr cls "SQLALCHEMY_DATABASE_URI") ->
      exists a w',
        outcome = (Ok a, w') /\
        forall k v, Py.str_isupper k = true -> getattr cls k = Some v ->
                    settings a w' k = Some (observe w' v)
  end.


End Program.

(** ** A concrete deployment, for evaluating the model *)

Record sample_user := { su_id : Z; su_name : string }.

#[export] Instance sample_user_model : UserModel sample_user := su_id.

Definition sample_bp : blueprint :=
  {| bp_name := "api";
     bp_rules := [ ("/soundings", "list_soundings", true);
                   ("/fuel", "list_fuel", true) ] |}.

Definition sample_world (env : gmap string string) : world sample_user :=
  {| environ := env;
     base_dir := "/srv/orb";
     routes_api_bp := sample_bp;
     heap := ∅;
     next_loc := 0%nat;
     db_tables := ∅;
     db_users := [ {| su_id := 1; su_name := "chief" |};
                   {| su_id := 7; su_name := "mate" |} ];
     db_apps := [] |}.

(** An environment that sets the variables the profiles read. *)
Definition sample_env : gmap string string :=
  <["DATABASE_URL" := "postgresql://db/orb"]>
  (<["LOG_LEVEL" := "ERROR"]>
  (<["SESSION_SECURE" := "true"]>
  (<["CORS_ORIGINS" := "http://a.com,http://b.com"]>
  (<["FLASK_ENV" := "staging"]> ∅)))).

(** ** Further built-ins and observations *)

(** [s.count(c)] for a one-character [c]. *)
Fixpoint str_count (c : ascii) (s : string) : nat :=
  match s with
  | EmptyString => 0%nat
  | String d r => if Ascii.eqb d c then S (str_count c r) else str_count c r
  end.




(** The variable is set to a text that [int] rejects. *)
Definition malformed_int (env : gmap string string) (key : string) : Prop :=
  exists s, env !! key = Some s /\ Py.py_int s = None.

(** The sixteen ways of writing "true" in upper and lower case. *)
Definition true_spellings : list string :=
  [ "true"; "truE"; "trUe"; "trUE"; "tRue"; "tRuE"; "tRUe"; "tRUE";
    "True"; "TruE"; "TrUe"; "TrUE"; "TRue"; "TRuE"; "TRUe"; "TRUE" ].

(** The flag read from a variable: [os.environ.get(key, dflt).lower() == "true"]. *)
Definition env_flag (env : gmap string string) (key dflt : string) : bool :=
  String.eqb (Py.str_lower (default dflt (env !! key))) "true".

(** A second environment, with the integer settings written the way
    [int] allows and a secure-cookie switch in capitals. *)
Definition tuned_env : gmap string string :=
  <["LOG_MAX_BYTES" := " 1_000 "]>
  (<["LOG_BACKUP_COUNT" := "-3"]>
  (<["SESSION_SECURE" := "TRUE"]>
  (<["LOG_JSON_FORMAT" := "yes"]>
  (<["SECRET_KEY" := "s3cret"]>
  (<["CORS_ORIGINS" := ""]> ∅))))).

(** An environment that names the testing profile. *)
Definition testing_env : gmap string string := <["FLASK_ENV" := "testing"]> ∅.

(** A class with one upper-case and one lower-case attribute, and a
    table that holds only it. *)
Definition sample_class : pyclass :=
  {| cls_name := "MiniConfig";
     cls_mro := [ [ ("SQLALCHEMY_DATABASE_URI", VStr "sqlite://");
                    ("note", VStr "not copied") ] ] |}.

Definition sample_config : gmap string pyclass := {[ "mini" := sample_class ]}.

(** * Properties *)

(** ** Text *)

Lemma str_split_cons sep s : exists h t, Py.str_split sep s = h :: t.
Proof.
  destruct s as [|c r]; simpl; [by eexists _, _|].
  destruct (Ascii.eqb c sep); [by eexists _, _|].
  destruct (Py.str_split sep r); by eexists _, _.
Qed.

Lemma str_join_cons sep x y l :
  Py.str_join sep (x :: y :: l) = (x ++ String sep (Py.str_join sep (y :: l)))%string.
Proof. reflexivity. Qed.

(** Joining the pieces with the separator gives the text back. *)
Lemma str_join_split sep s : Py.str_join sep (Py.str_split sep s) = s.
Proof.
  induction s as [|c r IH]; [done|].
  cbn [Py.str_split].
  destruct (str_split_cons sep r) as (h & t & E). rewrite E in IH |- *.
  destruct (Ascii.eqb_spec c sep) as [->|Hne].
  - rewrite str_join_cons, IH. reflexivity.
  - destruct t as [|h' t].
    + simpl in *. by rewrite IH.
    + rewrite str_join_cons in IH |- *. rewrite <- IH. reflexivity.
Qed.

(** No piece holds the separator. *)
Lemma str_split_pieces sep s :
  Forall (fun piece => Py.str_mem sep piece = false) (Py.str_split sep s).
Proof.
  induction s as [|c r IH]; [by repeat constructor|].
  cbn [Py.str_split].
  destruct (Ascii.eqb_spec c sep) as [->|Hne].
  - by constructor.
  - destruct (str_split_cons sep r) as (h & t & E). rewrite E in IH |- *.
    inversion IH as [|? ? Hh Ht]; subst. constructor; [|done].
    simpl. rewrite Hh. by destruct (Ascii.eqb_spec c sep).
Qed.

(** ** Attribute lookup *)

Lemma ns_lookup_dir k ns :
  In k (List.map fst ns) -> is_Some (ns_lookup k ns).
Proof.
  induction ns as [|[k' v] r IH]; simpl; [done|].
  intros [->|Hin].
  - rewrite String.eqb_refl. by eexists.
  - destruct (String.eqb k k'); [by eexists|by apply IH].
Qed.

(** Every name listed by [dir] has an attribute. *)
Lemma getattr_dir cls k : In k (cls_dir cls) -> is_Some (getattr cls k).
Proof.
  unfold cls_dir, getattr. induction (cls_mro cls) as [|ns r IH]; simpl; [done|].
  rewrite in_app_iff. intros [Hin|Hin].
  - destruct (ns_lookup_dir k ns Hin) as [v ->]. by eexists.
  - destruct (ns_lookup k ns); [by eexists|by apply IH].
Qed.

(** What [copy_settings] leaves under a key. *)
Lemma copy_settings_lookup cls keys d k :
  copy_settings cls keys d !! k =
  if Py.str_isupper k && bool_decide (k ∈ keys) then
    match getattr cls k with Some v => Some v | None => d !! k end
  else d !! k.
Proof.
  unfold copy_settings. revert d.
  induction keys as [|key rest IH]; intros d; cbn [foldl].
  - by rewrite andb_false_r.
  - rewrite IH. clear IH.
    destruct (decide (k = key)) as [->|Hne].
    + rewrite (bool_decide_eq_true_2 (key ∈ key :: rest)) by (by left).
      rewrite andb_true_r.
      destruct (Py.str_isupper key) eqn:Hup; simpl; [|done].
      destruct (getattr cls key) as [v|] eqn:Hv.
      * rewrite lookup_insert_eq. by destruct (bool_decide _).
      * by destruct (bool_decide _).
    + assert (bool_decide (k ∈ key :: rest) = bool_decide (k ∈ rest)) as ->.
      { apply bool_decide_ext. rewrite elem_of_cons. tauto. }
      assert ((if Py.str_isupper key
               then match getattr cls key with
                    | Some v => <[key:=v]> d
                    | None => d
                    end
               else d) !! k = d !! k) as ->; [|done].
      destruct (Py.str_isupper key); [|done].
      destruct (getattr cls key); [|done].
      by rewrite lookup_insert_ne.
Qed.

(** ** Running the monad *)

Section Run.
Context {User : Type} `{UserModel User}.

Lemma bind_ok {A B} (c : M A) (k : A -> M B) (w w' : world User) a :
  c w = (Ok a, w') -> bind c k w = k a w'.
Proof. unfold bind. by intros ->. Qed.

Lemma bind_raise {A B} (c : M A) (k : A -> M B) (w w' : world User) e :
  c w = (Raise e, w') -> bind c k w = (Raise e, w').
Proof. unfold bind. by intros ->. Qed.

Lemma with_heap_same (w : world User) :
  with_heap (heap w) (next_loc w) w = w.
Proof. by destruct w. Qed.

(** The loop of [from_object] writes the dictionary described by
    [copy_settings], and nothing else. *)
Lemma from_object_keys_run cfg cls keys (w : world User) d :
  heap w !! cfg = Some (ODict d) ->
  Forall (fun k => is_Some (getattr cls k)) keys ->
  from_object_keys cfg cls keys w =
  (Ok tt, with_heap (<[cfg := ODict (copy_settings cls keys d)]> (heap w)) (next_loc w) w).
Proof.
  revert w d. induction keys as [|key rest IH]; intros w d Hd Hkeys.
  - cbn. rewrite insert_id by done. by rewrite with_heap_same.
  - inversion Hkeys as [|? ? [v Hv] Hrest]; subst.
    cbn [from_object_keys copy_settings foldl]. rewrite Hv.
    destruct (Py.str_isupper key).
    + erewrite bind_ok; last first.
      { unfold dict_setitem. erewrite bind_ok; [reflexivity|].
        unfold read_dict. by rewrite Hd. }
      unfold write_obj. erewrite IH; [|apply lookup_insert_eq|done].
      destruct w; cbn. by rewrite insert_insert_eq.
    + erewrite bind_ok by reflexivity. by apply IH.
Qed.

End Run.

(** ** The configuration module *)

Section ConfigModule.
Context {User : Type} `{UserModel User}.

Ltac run_import :=
  cbv [import_config Config_body DevelopmentConfig_body ProductionConfig_body
       TestingConfig_body bind ret raise environ_get environ_int get_base_dir
       alloc import_world with_heap cors_items
       environ base_dir heap next_loc routes_api_bp db_tables db_users db_apps].

(** Inversion of a successful import: the two integer variables were
    readable, and the module is the one built from them. *)
Ltac import_inv Himp :=
  match type of Himp with
  | import_config ?w = _ =>
      destruct w as [env base bp h n tabs users apps];
      revert Himp; run_import;
      destruct (env !! "LOG_MAX_BYTES") as [s1|];
        [destruct (Py.py_int s1) as [n1|]; [|intros [=]]|];
        (destruct (env !! "LOG_BACKUP_COUNT") as [s2|];
           [destruct (Py.py_int s2) as [n2|]; [|intros [=]]|]);
      intros [= <- <-]
  end.

(** The module loads whenever the two integer variables are unset or
    readable, and then leaves one new list object in the store. *)
Lemma import_config_ok (w : world User) :
  env_ints_ok (environ w) = true ->
  exists m, import_config w = (Ok m, import_world w).
Proof.
  unfold env_ints_ok, int_var_ok. intros [H1 H2]%andb_prop.
  destruct w as [env base bp h n tabs users apps]. cbn [environ] in H1, H2.
  run_import.
  destruct (env !! "LOG_MAX_BYTES") as [s1|];
    [apply bool_decide_eq_true in H1 as [n1 ->]|];
    (destruct (env !! "LOG_BACKUP_COUNT") as [s2|];
       [apply bool_decide_eq_true in H2 as [n2 ->]|]);
    by eexists.
Qed.

(** Otherwise the import stops with [ValueError]. *)
Lemma import_config_fails (w : world User) :
  env_ints_ok (environ w) = false ->
  exists w1, import_config w = (Raise ValueError, w1).
Proof.
  unfold env_ints_ok, int_var_ok. intros Hbad.
  destruct w as [env base bp h n tabs users apps]. cbn [environ] in Hbad.
  run_import.
  destruct (env !! "LOG_MAX_BYTES") as [s1|].
  - destruct (Py.py_int s1) as [n1|] eqn:E1; [|by eexists].
    rewrite bool_decide_eq_true_2 in Hbad by (by eexists). simpl in Hbad.
    destruct (env !! "LOG_BACKUP_COUNT") as [s2|]; [|done].
    destruct (Py.py_int s2) as [n2|] eqn:E2; [|by eexists].
    by rewrite bool_decide_eq_true_2 in Hbad by (by eexists).
  - simpl in Hbad.
    destruct (env !! "LOG_BACKUP_COUNT") as [s2|]; [|done].
    destruct (Py.py_int s2) as [n2|] eqn:E2; [|by eexists].
    by rewrite bool_decide_eq_true_2 in Hbad by (by eexists).
Qed.

Lemma import_config_world (w w1 : world User) m :
  import_config w = (Ok m, w1) -> w1 = import_world w.
Proof. intros Himp. import_inv Himp; repeat split; reflexivity. Qed.

(** The dictionary [config] of the module. *)
Lemma import_config_table (w w1 : world User) m :
  import_config w = (Ok m, w1) ->
  config m = <["development" := DevelopmentConfig m]>
             (<["production" := ProductionConfig m]>
             (<["testing" := TestingConfig m]>
             (<["default" := DevelopmentConfig m]> ∅))).
Proof. intros Himp. import_inv Himp; repeat split; reflexivity. Qed.

Lemma config_lookup_cases (w w1 : world User) m name cls :
  import_config w = (Ok m, w1) ->
  config m !! name = Some cls ->
  name ∈ profile_names /\
  (cls = DevelopmentConfig m \/ cls = ProductionConfig m \/ cls = TestingConfig m).
Proof.
  intros Himp. rewrite (import_config_table _ _ _ Himp). unfold profile_names.
  rewrite !lookup_insert. repeat case_decide; subst; rewrite ?lookup_empty;
    intros [= <-]; (split; [set_solver|tauto]).
Qed.

Lemma config_lookup_profile (w w1 : world User) m name :
  import_config w = (Ok m, w1) ->
  name ∈ profile_names -> is_Some (config m !! name).
Proof.
  intros Himp. rewrite (import_config_table _ _ _ Himp). unfold profile_names.
  rewrite !elem_of_cons, elem_of_nil.
  intros [->|[->|[->|[->|Hf]]]]; [| | | |done]; rewrite !lookup_insert;
    repeat case_decide; try done; by eexists.
Qed.

Lemma config_lookup_other (w w1 : world User) m name :
  import_config w = (Ok m, w1) ->
  name ∉ profile_names -> config m !! name = None.
Proof.
  intros Himp Hname. destruct (config m !! name) as [cls|] eqn:E; [|done].
  by destruct (config_lookup_cases _ _ _ _ _ Himp E).
Qed.

(** The fields that [TestingConfig] fixes. *)
Lemma testing_fields (w w1 : world User) m :
  import_config w = (Ok m, w1) ->
  getattr (TestingConfig m) "SQLALCHEMY_DATABASE_URI" = Some (VStr "sqlite:///:memory:") /\
  getattr (TestingConfig m) "LOG_LEVEL" = Some (VStr "WARNING").
Proof. intros Himp. import_inv Himp; repeat split; reflexivity. Qed.

(** Fields that no profile overrides. *)
Lemma inherited_fields (w w1 : world User) m cls :
  import_config w = (Ok m, w1) ->
  cls = DevelopmentConfig m \/ cls = ProductionConfig m \/ cls = TestingConfig m ->
  getattr cls "SESSION_COOKIE_SECURE" =
    Some (VBool (String.eqb
                   (Py.str_lower (default "False" (environ w !! "SESSION_SECURE")))
                   "true")) /\
  getattr cls "CORS_ORIGINS" = Some (VRef (next_loc w)) /\
  exists uri, getattr cls "SQLALCHEMY_DATABASE_URI" = Some (VStr uri).
Proof.
  intros Himp Hcls. import_inv Himp.
  all: destruct Hcls as [-> | [-> | ->]]; (split; [reflexivity|]); (split; [reflexivity|]); eexists; reflexivity.
Qed.

(** The only reference among the class attributes is the list of
    allowed origins. *)
Lemma class_refs (w w1 : world User) m cls k l :
  import_config w = (Ok m, w1) ->
  cls = DevelopmentConfig m \/ cls = ProductionConfig m \/ cls = TestingConfig m ->
  getattr cls k = Some (VRef l) -> l = next_loc w.
Proof.
  intros Himp Hcls. import_inv Himp.
  all: destruct Hcls as [-> | [-> | ->]];
    cbn [getattr cls_mro mro_lookup ns_lookup DevelopmentConfig ProductionConfig
         TestingConfig];
    repeat (destruct (String.eqb k _); [by intros [=]|]); by intros [=].
Qed.

End ConfigModule.

(** ** The application factory *)

Section Factory.
Context {User : Type} `{UserModel User}.

Lemma getattr_in_dir cls k : is_Some (getattr cls k) -> k ∈ cls_dir cls.
Proof.
  unfold getattr, cls_dir. intros Hk. apply list_elem_of_In. revert Hk.
  induction (cls_mro cls) as [|ns r IH]; simpl; [by intros [? [=]]|].
  intros Hk. apply in_app_iff.
  destruct (ns_lookup k ns) as [v|] eqn:E; [left|right; by apply IH].
  clear -E. induction ns as [|[k' v'] ns IH]; simpl in *; [done|].
  destruct (String.eqb_spec k k'); [by left|right; by apply IH].
Qed.

(** The settings dictionary of a new application holds the upper-case
    attributes of the class. *)
Lemma factory_settings cls k :
  copy_settings cls (cls_dir cls) ∅ !! k =
  if Py.str_isupper k then getattr cls k else None.
Proof.
  rewrite copy_settings_lookup, lookup_empty.
  destruct (Py.str_isupper k); simpl; [|done].
  case_bool_decide as Hin.
  - by destruct (getattr cls k).
  - destruct (getattr cls k) as [v|] eqn:E; [|done].
    destruct Hin. apply getattr_in_dir. by eexists.
Qed.

(** The application that the factory returns. *)
Lemma create_app_run cfg name cls (w : world User) :
  cfg !! name = Some cls ->
  is_Some (getattr cls "SQLALCHEMY_DATABASE_URI") ->
  create_app cfg (Some name) w =
  (Ok {| app_config := next_loc w;
         template_folder := "../templates";
         static_folder := "../static";
         extensions := ["sqlalchemy"; "migrate"];
         app_login_manager :=
           Some {| login_view := Some "auth.login";
                   login_message := "Please log in to access this page.";
                   login_message_category := "info";
                   user_callback := Some load_user |};
         blueprints := [(bp_name (routes_api_bp w), "/api")];
         url_map :=
           {| rule_path := "/static/<path:filename>"; rule_endpoint := "static";
              rule_view := StaticFile; rule_login_required := false |}
           :: List.map (mounted_rule (routes_api_bp w) "/api")
                       (bp_rules (routes_api_bp w))
           ++ [ {| rule_path := "/"; rule_endpoint := "dashboard";
                   rule_view := RenderTemplate "dashboard.html" [];
                   rule_login_required := false |};
                {| rule_path := "/soundings"; rule_endpoint := "weekly_soundings";
                   rule_view := RenderTemplate "soundings.html" [];
                   rule_login_required := false |};
                {| rule_path := "/history"; rule_endpoint := "history";
                   rule_view := RenderTemplate "history.html" [];
                   rule_login_required := false |};
                {| rule_path := "/fuel"; rule_endpoint := "fuel_tickets";
                   rule_view := RenderTemplate "fuel.html" [];
                   rule_login_required := false |};
                {| rule_path := "/new-hitch"; rule_endpoint := "new_hitch";
                   rule_view := RenderTemplate "new_hitch.html" [];
                   rule_login_required := false |} ] |},
   factory_world cls w).
Proof.
  intros Hcfg [uri Huri]. unfold create_app, resolve_config_name.
  erewrite bind_ok by reflexivity.
  erewrite (bind_ok (Flask_new _ _)) by reflexivity.
  erewrite bind_ok by (unfold config_lookup; rewrite Hcfg; reflexivity).
  erewrite bind_ok; last first.
  { apply (from_object_keys_run _ _ _ _ ∅).
    - cbn. apply lookup_insert_eq.
    - apply Forall_forall. intros k Hk. by apply getattr_dir, list_elem_of_In. }
  erewrite (bind_ok (db_init_app _)); last first.
  { unfold db_init_app. erewrite bind_ok; last first.
    { unfold read_dict. cbn. rewrite lookup_insert_eq. reflexivity. }
    rewrite factory_settings. change (Py.str_isupper _) with true. cbv iota.
    rewrite Huri. reflexivity. }
  destruct w as [env base bp h n tabs users apps].
  cbv [bind ret Migrate LoginManager_init_app with_login_manager set_login_manager
       app_login_manager register_blueprint route add_url_rules add_extension
       LoginManager_new set_login_view set_login_message set_login_message_category
       user_loader login_view login_message login_message_category user_callback
       app_config template_folder static_folder extensions blueprints url_map
       with_heap with_db_apps factory_world
       environ base_dir heap next_loc routes_api_bp db_tables db_users db_apps].
  rewrite insert_insert_eq. rewrite <- !app_assoc. reflexivity.
Qed.

(** An unknown profile name stops the factory at the lookup, after the
    application object was made and before anything is attached. *)
Lemma create_app_unknown cfg name (w : world User) :
  cfg !! name = None ->
  create_app cfg (Some name) w = (Raise (KeyError name), flask_world w).
Proof.
  intros Hcfg. unfold create_app, resolve_config_name.
  erewrite bind_ok by reflexivity.
  erewrite (bind_ok (Flask_new _ _)) by reflexivity.
  erewrite bind_raise; [reflexivity|].
  unfold config_lookup. rewrite Hcfg. reflexivity.
Qed.

(** Without an argument the factory reads [FLASK_ENV]. *)
Lemma create_app_default cfg (w : world User) :
  create_app cfg None w =
  create_app cfg (Some (default "development" (environ w !! "FLASK_ENV"))) w.
Proof. reflexivity. Qed.

End Factory.

(** ** Configuration profiles *)

Section Profiles.
Context {User : Type} `{UserModel User}.

(** Each of the four names selects a class of the imported module, and
    each class carries a database address. *)
Lemma profile_class (w : world User) name :
  env_ints_ok (environ w) = true ->
  name ∈ profile_names ->
  exists m cls,
    import_config w = (Ok m, import_world w) /\
    config m !! name = Some cls /\
    (cls = DevelopmentConfig m \/ cls = ProductionConfig m \/ cls = TestingConfig m) /\
    is_Some (getattr cls "SQLALCHEMY_DATABASE_URI").
Proof.
  intros Hok Hname. destruct (import_config_ok w Hok) as [m Himp].
  destruct (config_lookup_profile _ _ _ name Himp Hname) as [cls Hcls].
  destruct (config_lookup_cases _ _ _ _ _ Himp Hcls) as [_ Hcases].
  destruct (inherited_fields _ _ _ cls Himp Hcases) as (_ & _ & uri & Huri).
  exists m, cls. split; [done|]. split; [done|]. split; [done|]. by eexists.
Qed.

(** What a reader finds under an upper-case key of a new application. *)
Lemma factory_world_settings cls (w : world User) a k v :
  app_config a = next_loc w ->
  Py.str_isupper k = true ->
  getattr cls k = Some v ->
  (forall l, v <> VRef l) ->
  settings a (factory_world cls w) k = Some (SValue v).
Proof.
  intros Ha Hup Hv Hnoref. unfold settings. rewrite Ha.
  destruct w; cbn. rewrite lookup_insert_eq, factory_settings, Hup, Hv.
  cbn. destruct v; try done. by destruct (Hnoref l).
Qed.

(** The testing profile in any environment in which the module loads. *)
Lemma testing_profile_any_env (w : world User) :
  env_ints_ok (environ w) = true ->
  exists m w1 cls a w2,
    import_config w = (Ok m, w1) /\
    config m !! "testing" = Some cls /\
    getattr cls "SQLALCHEMY_DATABASE_URI" = Some (VStr "sqlite:///:memory:") /\
    getattr cls "LOG_LEVEL" = Some (VStr "WARNING") /\
    create_app (config m) (Some "testing") w1 = (Ok a, w2) /\
    settings a w2 "SQLALCHEMY_DATABASE_URI" = Some (SValue (VStr "sqlite:///:memory:")) /\
    settings a w2 "LOG_LEVEL" = Some (SValue (VStr "WARNING")).
Proof.
  intros Hok. destruct (import_config_ok w Hok) as [m Himp].
  destruct (testing_fields _ _ _ Himp) as [Huri Hlevel].
  assert (config m !! "testing" = Some (TestingConfig m)) as Hcfg.
  { rewrite (import_config_table _ _ _ Himp).
    rewrite !lookup_insert. by repeat case_decide. }
  eexists m, _, _, _, _. split; [exact Himp|]. split; [exact Hcfg|].
  split; [exact Huri|]. split; [exact Hlevel|].
  split; [apply create_app_run; [exact Hcfg|by eexists]|].
  split; eapply factory_world_settings; done.
Qed.

(** Assigning a variable other than the two integer ones does not
    change whether the module loads. *)
Lemma env_ints_ok_assign key v env :
  key <> "LOG_MAX_BYTES" -> key <> "LOG_BACKUP_COUNT" ->
  env_ints_ok (assign_var key v env) = env_ints_ok env.
Proof.
  intros H1 H2. unfold env_ints_ok, int_var_ok, assign_var.
  destruct v; by rewrite ?lookup_insert_ne, ?lookup_delete_ne by done.
Qed.

(** C2: for every assignment of DATABASE_URL and LOG_LEVEL (each set to
    any text, or unset), the testing profile has the in-memory SQLite
    address and the log level WARNING, both as class attributes and in
    the settings of an application made from it. *)
Theorem testing_profile_fixed (w : world User) (database_url log_level : option string) :
  env_ints_ok (environ w) = true ->
  exists m w1 cls a w2,
    import_config
      (with_environ
         (assign_var "DATABASE_URL" database_url
            (assign_var "LOG_LEVEL" log_level (environ w))) w) = (Ok m, w1) /\
    config m !! "testing" = Some cls /\
    getattr cls "SQLALCHEMY_DATABASE_URI" = Some (VStr "sqlite:///:memory:") /\
    getattr cls "LOG_LEVEL" = Some (VStr "WARNING") /\
    create_app (config m) (Some "testing") w1 = (Ok a, w2) /\
    settings a w2 "SQLALCHEMY_DATABASE_URI" = Some (SValue (VStr "sqlite:///:memory:")) /\
    settings a w2 "LOG_LEVEL" = Some (SValue (VStr "WARNING")).
Proof.
  intros Hok. apply testing_profile_any_env. cbn [environ with_environ].
  by rewrite !env_ints_ok_assign.
Qed.

(** C5: with SESSION_SECURE set to "true" every profile has the
    secure-cookie flag on; with SESSION_SECURE unset every profile has it
    off. *)
Theorem session_cookie_secure_flag (w : world User) :
  env_ints_ok (environ w) = true ->
  exists m w1,
    import_config w = (Ok m, w1) /\
    forall name, name ∈ profile_names ->
      exists cls,
        config m !! name = Some cls /\
        (environ w !! "SESSION_SECURE" = Some "true" ->
         getattr cls "SESSION_COOKIE_SECURE" = Some (VBool true)) /\
        (environ w !! "SESSION_SECURE" = None ->
         getattr cls "SESSION_COOKIE_SECURE" = Some (VBool false)).
Proof.
  intros Hok. destruct (import_config_ok w Hok) as [m Himp].
  exists m, (import_world w). split; [done|]. intros name Hname.
  destruct (config_lookup_profile _ _ _ name Himp Hname) as [cls Hcls].
  destruct (config_lookup_cases _ _ _ _ _ Himp Hcls) as [_ Hcases].
  destruct (inherited_fields _ _ _ cls Himp Hcases) as (Hflag & _).
  exists cls. split; [done|]. rewrite Hflag. split; by intros ->.
Qed.

(** C6: the allowed origins are the pieces of CORS_ORIGINS between
    commas, in order: joining them with commas gives the text back and no
    piece holds a comma.  For "http://a.com,http://b.com" these are
    exactly "http://a.com" and "http://b.com". *)
Theorem cors_origins_split (w : world User) s :
  env_ints_ok (environ w) = true ->
  environ w !! "CORS_ORIGINS" = Some s ->
  exists m w1,
    import_config w = (Ok m, w1) /\
    Py.str_join "," (Py.str_split "," s) = s /\
    Forall (fun piece => Py.str_mem "," piece = false) (Py.str_split "," s) /\
    forall name, name ∈ profile_names ->
      exists cls l,
        config m !! name = Some cls /\
        getattr cls "CORS_ORIGINS" = Some (VRef l) /\
        heap w1 !! l = Some (OList (VStr <$> Py.str_split "," s)) /\
        (s = "http://a.com,http://b.com" ->
         heap w1 !! l = Some (OList [VStr "http://a.com"; VStr "http://b.com"])).
Proof.
  intros Hok Hs. destruct (import_config_ok w Hok) as [m Himp].
  exists m, (import_world w). split; [done|].
  split; [apply str_join_split|]. split; [apply str_split_pieces|].
  intros name Hname.
  destruct (config_lookup_profile _ _ _ name Himp Hname) as [cls Hcls].
  destruct (config_lookup_cases _ _ _ _ _ Himp Hcls) as [_ Hcases].
  destruct (inherited_fields _ _ _ cls Himp Hcases) as (_ & Hcors & _).
  exists cls, (next_loc w). split; [done|]. split; [done|].
  assert (heap (import_world w) !! next_loc w
          = Some (OList (VStr <$> Py.str_split "," s))) as Hheap.
  { unfold import_world, cors_items. rewrite Hs. destruct w; cbn.
    apply lookup_insert_eq. }
  split; [exact Hheap|]. intros ->. exact Hheap.
Qed.

(** What a reader finds under an upper-case attribute of the class in
    the settings of a new application. *)
Lemma factory_world_observe cls (w : world User) a k v :
  app_config a = next_loc w ->
  Py.str_isupper k = true ->
  getattr cls k = Some v ->
  settings a (factory_world cls w) k = Some (observe (factory_world cls w) v).
Proof.
  intros Ha Hup Hv. unfold settings. rewrite Ha.
  assert (heap (factory_world cls w) !! next_loc w
          = Some (ODict (copy_settings cls (cls_dir cls) ∅))) as ->.
  { destruct w; cbn. apply lookup_insert_eq. }
  by rewrite factory_settings, Hup, Hv.
Qed.

(** A call with a name goes by the entry of that name. *)
Lemma create_app_uses cfg name (w : world User) :
  uses_profile cfg name w (create_app cfg (Some name) w).
Proof.
  unfold uses_profile. destruct (cfg !! name) as [cls|] eqn:Hcfg.
  - intros Huri. eexists _, _. split; [by apply create_app_run|].
    intros k v Hup Hv. by apply factory_world_observe.
  - by apply create_app_unknown.
Qed.

(** C7: whatever the table of profiles is, the factory goes by the
    entry of the given profile name; called without a name it goes by
    the entry named by FLASK_ENV; without that it goes by the entry
    "development".  Going by an entry shows in the outcome: the settings
    of the application hold the upper-case attributes of that entry's
    class, and a missing entry raises [KeyError] with that name. *)
Theorem profile_resolution (cfg : gmap string pyclass) (w : world User) :
  (forall name, uses_profile cfg name w (create_app cfg (Some name) w)) /\
  (forall v, environ w !! "FLASK_ENV" = Some v ->
     uses_profile cfg v w (create_app cfg None w)) /\
  (environ w !! "FLASK_ENV" = None ->
     uses_profile cfg "development" w (create_app cfg None w)).
Proof.
  split; [intros name; apply create_app_uses|].
  split; [intros v Hv|intros Hv];
    rewrite create_app_default, Hv; apply create_app_uses.
Qed.

(** C9: "default" and "development" select one and the same class, so
    every field read through one equals the field read through the
    other, and so do the settings of applications made from them. *)
Theorem default_is_development (w : world User) :
  env_ints_ok (environ w) = true ->
  exists m w1 cls,
    import_config w = (Ok m, w1) /\
    config m !! "default" = Some cls /\
    config m !! "development" = Some cls /\
    (forall dflt dev, config m !! "default" = Some dflt ->
       config m !! "development" = Some dev ->
       forall k, getattr dflt k = getattr dev k) /\
    exists a1 a2 w2,
      create_app (config m) (Some "default") w1 = (Ok a1, w2) /\
      create_app (config m) (Some "development") w1 = (Ok a2, w2) /\
      forall k, settings a1 w2 k = settings a2 w2 k.
Proof.
  intros Hok.
  destruct (profile_class w "development" Hok) as (m & cls & Himp & Hdev & _ & Huri).
  { apply elem_of_cons. by left. }
  assert (config m !! "default" = Some cls) as Hdflt.
  { revert Hdev. rewrite (import_config_table _ _ _ Himp), !lookup_insert.
    by repeat case_decide. }
  exists m, (import_world w), cls. repeat split; try done.
  - intros dflt dev. rewrite Hdflt, Hdev. by intros [= <-] [= <-].
  - eexists _, _, _. split; [by apply create_app_run|].
    split; [by apply create_app_run|]. done.
Qed.

(** C10: a profile name outside the four raises [KeyError] at the lookup
    in [config], given directly or through FLASK_ENV; at that point only
    the application object exists: nothing is bound to the database
    object and no table is touched. *)
Theorem unknown_profile_key_error (w : world User) name :
  env_ints_ok (environ w) = true ->
  name ∉ profile_names ->
  exists m,
    import_config w = (Ok m, import_world w) /\
    create_app (config m) (Some name) (import_world w)
      = (Raise (KeyError name), flask_world (import_world w)) /\
    (environ (import_world w) !! "FLASK_ENV" = Some name ->
     create_app (config m) None (import_world w)
       = (Raise (KeyError name), flask_world (import_world w))) /\
    db_apps (flask_world (import_world w)) = db_apps (import_world w) /\
    db_tables (flask_world (import_world w)) = db_tables (import_world w) /\
    heap (flask_world (import_world w))
      = <[next_loc (import_world w) := ODict ∅]> (heap (import_world w)).
Proof.
  intros Hok Hname. destruct (import_config_ok w Hok) as [m Himp].
  pose proof (config_lookup_other _ _ _ name Himp Hname) as Hnone.
  exists m. split; [done|].
  split; [by apply create_app_unknown|].
  split; [|done].
  intros Henv. rewrite create_app_default, Henv. by apply create_app_unknown.
Qed.

End Profiles.

(** ** Frame: the factory and the database schema *)

Section Frame.
Context {User : Type} `{UserModel User}.

Lemma keeps_tables_ret {A} (a : A) : keeps_tables (User:=User) (ret a).
Proof. done. Qed.

Lemma keeps_tables_raise {A} e : keeps_tables (User:=User) (raise (A:=A) e).
Proof. done. Qed.

Lemma keeps_tables_bind {A B} (c : M A) (k : A -> M (User:=User) B) :
  keeps_tables c -> (forall a, keeps_tables (k a)) -> keeps_tables (bind c k).
Proof.
  intros Hc Hk w. unfold bind. specialize (Hc w).
  destruct (c w) as [[a|e] w']; simpl in *; [|done].
  by rewrite Hk.
Qed.

Lemma keeps_tables_environ_get key dflt :
  keeps_tables (User:=User) (environ_get key dflt).
Proof. done. Qed.

Lemma keeps_tables_environ_int key dflt :
  keeps_tables (User:=User) (environ_int key dflt).
Proof.
  intros w. unfold environ_int.
  destruct (environ w !! key) as [s|]; [|done]. by destruct (Py.py_int s).
Qed.

Lemma keeps_tables_get_base_dir : keeps_tables (User:=User) get_base_dir.
Proof. done. Qed.

Lemma keeps_tables_alloc o : keeps_tables (User:=User) (alloc o).
Proof. done. Qed.

Lemma keeps_tables_read_dict l : keeps_tables (User:=User) (read_dict l).
Proof. intros w. unfold read_dict. by destruct (heap w !! l) as [[]|]. Qed.

Lemma keeps_tables_write_obj l o : keeps_tables (User:=User) (write_obj l o).
Proof. done. Qed.

Lemma keeps_tables_dict_setitem l k v :
  keeps_tables (User:=User) (dict_setitem l k v).
Proof.
  apply keeps_tables_bind; [apply keeps_tables_read_dict|].
  intros d. apply keeps_tables_write_obj.
Qed.

Lemma keeps_tables_from_object_keys cfg cls keys :
  keeps_tables (User:=User) (from_object_keys cfg cls keys).
Proof.
  induction keys as [|key rest IH]; [done|].
  apply keeps_tables_bind; [|done].
  destruct (Py.str_isupper key); [|done].
  destruct (getattr cls key); [apply keeps_tables_dict_setitem|done].
Qed.

Lemma keeps_tables_db_init_app (a : app User) : keeps_tables (db_init_app a).
Proof.
  apply keeps_tables_bind; [apply keeps_tables_read_dict|].
  intros d. by destruct (d !! "SQLALCHEMY_DATABASE_URI"), (d !! "SQLALCHEMY_BINDS").
Qed.

Lemma keeps_tables_with_login_manager f (a : app User) :
  keeps_tables (with_login_manager f a).
Proof. unfold with_login_manager. by destruct (app_login_manager a). Qed.

Lemma keeps_tables_register_blueprint p (a : app User) :
  keeps_tables (register_blueprint p a).
Proof. done. Qed.

Lemma keeps_tables_config_lookup cfg name :
  keeps_tables (User:=User) (config_lookup cfg name).
Proof. unfold config_lookup. by destruct (cfg !! name). Qed.

Lemma keeps_tables_resolve name :
  keeps_tables (User:=User) (resolve_config_name name).
Proof. by destruct name. Qed.

(** One step through a computation made of the primitives above. *)
Ltac frame_step :=
  match goal with
  | |- keeps_tables (bind _ _) => apply keeps_tables_bind; [|intros ?]
  | |- keeps_tables (ret _) => apply keeps_tables_ret
  | |- keeps_tables (alloc _) => apply keeps_tables_alloc
  | |- keeps_tables (environ_get _ _) => apply keeps_tables_environ_get
  | |- keeps_tables (environ_int _ _) => apply keeps_tables_environ_int
  | |- keeps_tables get_base_dir => apply keeps_tables_get_base_dir
  | |- keeps_tables (resolve_config_name _) => apply keeps_tables_resolve
  | |- keeps_tables (config_lookup _ _) => apply keeps_tables_config_lookup
  | |- keeps_tables (from_object_keys _ _ _) => apply keeps_tables_from_object_keys
  | |- keeps_tables (db_init_app _) => apply keeps_tables_db_init_app
  | |- keeps_tables (with_login_manager _ _) => apply keeps_tables_with_login_manager
  | |- keeps_tables (register_blueprint _ _) => apply keeps_tables_register_blueprint
  end.

Lemma keeps_tables_create_app cfg name :
  keeps_tables (User:=User) (create_app cfg name).
Proof.
  unfold create_app, Flask_new, from_object, Migrate, LoginManager_init_app, route.
  repeat frame_step.
Qed.

Lemma keeps_tables_import_config : keeps_tables (User:=User) import_config.
Proof.
  unfold import_config, Config_body, DevelopmentConfig_body,
    ProductionConfig_body, TestingConfig_body.
  repeat frame_step.
Qed.

(** The module is imported and the factory called once. *)
Lemma start_app_run (w : world User) name :
  env_ints_ok (environ w) = true ->
  name ∈ profile_names ->
  exists m cls a,
    start_app (Some name) w = (Ok (m, a), factory_world cls (import_world w)) /\
    import_config w = (Ok m, import_world w) /\
    config m !! name = Some cls /\
    (cls = DevelopmentConfig m \/ cls = ProductionConfig m \/ cls = TestingConfig m) /\
    create_app (config m) (Some name) (import_world w)
      = (Ok a, factory_world cls (import_world w)) /\
    app_config a = next_loc (import_world w) /\
    extensions a = ["sqlalchemy"; "migrate"] /\
    app_login_manager a =
      Some {| login_view := Some "auth.login";
              login_message := "Please log in to access this page.";
              login_message_category := "info";
              user_callback := Some load_user |} /\
    blueprints a = [(bp_name (routes_api_bp w), "/api")] /\
    url_map a =
      {| rule_path := "/static/<path:filename>"; rule_endpoint := "static";
         rule_view := StaticFile; rule_login_required := false |}
      :: List.map (mounted_rule (routes_api_bp w) "/api") (bp_rules (routes_api_bp w))
      ++ [ {| rule_path := "/"; rule_endpoint := "dashboard";
              rule_view := RenderTemplate "dashboard.html" [];
              rule_login_required := false |};
           {| rule_path := "/soundings"; rule_endpoint := "weekly_soundings";
              rule_view := RenderTemplate "soundings.html" [];
              rule_login_required := false |};
           {| rule_path := "/history"; rule_endpoint := "history";
              rule_view := RenderTemplate "history.html" [];
              rule_login_required := false |};
           {| rule_path := "/fuel"; rule_endpoint := "fuel_tickets";
              rule_view := RenderTemplate "fuel.html" [];
              rule_login_required := false |};
           {| rule_path := "/new-hitch"; rule_endpoint := "new_hitch";
              rule_view := RenderTemplate "new_hitch.html" [];
              rule_login_required := false |} ].
Proof.
  intros Hok Hname.
  destruct (profile_class w name Hok Hname) as (m & cls & Himp & Hcfg & Hcls & Huri).
  pose proof (create_app_run _ _ _ (import_world w) Hcfg Huri) as Hrun.
  eexists m, cls, _. split.
  { unfold start_app. erewrite bind_ok by exact Himp.
    erewrite bind_ok by exact Hrun. reflexivity. }
  split; [done|]. split; [done|]. split; [done|]. split; [exact Hrun|].
  by destruct w.
Qed.

(** C4: the factory leaves the set of tables of the database as it
    found it, whatever the profile name and whether it returns or
    raises; so does the import of the configuration module.  What the
    factory attaches for the schema is the migration extension. *)
Theorem create_app_keeps_tables :
  (forall cfg config_name (w : world User),
     db_tables (snd (create_app cfg config_name w)) = db_tables w) /\
  (forall config_name (w : world User),
     db_tables (snd (start_app config_name w)) = db_tables w) /\
  (forall (w : world User) name,
     env_ints_ok (environ w) = true -> name ∈ profile_names ->
     exists m a w',
       start_app (Some name) w = (Ok (m, a), w') /\
       "migrate" ∈ extensions a /\
       db_tables w' = db_tables w).
Proof.
  split; [intros cfg name; apply keeps_tables_create_app|].
  split.
  - intros name. unfold start_app.
    apply keeps_tables_bind; [apply keeps_tables_import_config|]. intros m.
    apply keeps_tables_bind; [apply keeps_tables_create_app|]. done.
  - intros w name Hok Hname.
    destruct (start_app_run w name Hok Hname)
      as (m & cls & a & Hstart & _ & _ & _ & _ & _ & Hext & _).
    exists m, a, (factory_world cls (import_world w)).
    split; [done|]. split; [|done].
    rewrite Hext. apply elem_of_cons. right. apply elem_of_cons. by left.
Qed.

End Frame.

(** ** Routes, the user loader, and two applications side by side *)

Section Instances.
Context {User : Type} `{UserModel User}.




(** A reader of an application's settings sees no change when the store
    agrees on its dictionary and on the objects its values refer to. *)
Lemma settings_frame (a : app User) (w w'' : world User) d :
  heap w !! app_config a = Some (ODict d) ->
  heap w'' !! app_config a = Some (ODict d) ->
  (forall k l, d !! k = Some (VRef l) -> heap w'' !! l = heap w !! l) ->
  forall k, settings a w'' k = settings a w k.
Proof.
  intros Hd Hd' Hrefs k. unfold settings. rewrite Hd, Hd'.
  destruct (d !! k) as [v|] eqn:Hv; [|done]. cbn. f_equal.
  destruct v; try done. cbn. by rewrite (Hrefs k l Hv).
Qed.

(** The module is imported and the factory called twice. *)
Lemma two_apps_run (w : world User) name :
  env_ints_ok (environ w) = true ->
  name ∈ profile_names ->
  exists m cls a1 a2,
    two_apps (Some name) w
      = (Ok (a1, a2), factory_world cls (factory_world cls (import_world w))) /\
    import_config w = (Ok m, import_world w) /\
    (cls = DevelopmentConfig m \/ cls = ProductionConfig m \/ cls = TestingConfig m) /\
    app_config a1 = S (next_loc w) /\
    app_config a2 = S (S (next_loc w)).
Proof.
  intros Hok Hname.
  destruct (profile_class w name Hok Hname) as (m & cls & Himp & Hcfg & Hcls & Huri).
  pose proof (create_app_run _ _ _ (import_world w) Hcfg Huri) as Hrun1.
  pose proof (create_app_run _ _ _ (factory_world cls (import_world w)) Hcfg Huri)
    as Hrun2.
  eexists m, cls, _, _. split.
  { unfold two_apps. erewrite bind_ok by exact Himp.
    erewrite bind_ok by exact Hrun1. erewrite bind_ok by exact Hrun2. reflexivity. }
  split; [done|]. split; [done|]. by destruct w.
Qed.

(** What the store holds after the two calls: one dictionary per
    application, with equal content, and the list of origins made by the
    import, which is the only object the dictionaries refer to. *)
Lemma two_apps_store (w : world User) name :
  env_ints_ok (environ w) = true ->
  name ∈ profile_names ->
  exists a1 a2 w' d,
    two_apps (Some name) w = (Ok (a1, a2), w') /\
    app_config a1 = S (next_loc w) /\
    app_config a2 = S (S (next_loc w)) /\
    heap w' = <[S (S (next_loc w)) := ODict d]>
              (<[S (next_loc w) := ODict d]>
              (<[next_loc w := OList (cors_items (environ w))]> (heap w))) /\
    next_loc w' = S (S (S (next_loc w))) /\
    d !! "CORS_ORIGINS" = Some (VRef (next_loc w)) /\
    (forall k l, d !! k = Some (VRef l) -> l = next_loc w).
Proof.
  intros Hok Hname.
  destruct (two_apps_run w name Hok Hname)
    as (m & cls & a1 & a2 & Hrun & Himp & Hcls & Ha1 & Ha2).
  exists a1, a2, (factory_world cls (factory_world cls (import_world w))),
    (copy_settings cls (cls_dir cls) ∅).
  split; [exact Hrun|]. split; [exact Ha1|]. split; [exact Ha2|].
  split; [by destruct w|]. split; [by destruct w|]. split.
  - rewrite factory_settings.
    by destruct (inherited_fields _ _ _ cls Himp Hcls) as (_ & -> & _).
  - intros k l. rewrite factory_settings.
    destruct (Py.str_isupper k); [|done]. by apply (class_refs _ _ _ _ _ _ Himp).
Qed.

(** Appending to the list found under CORS_ORIGINS of the first
    application is seen by a reader of the second. *)
Lemma append_seen_by_second (w : world User) name x :
  env_ints_ok (environ w) = true ->
  name ∈ profile_names ->
  exists a1 a2 w' v w'',
    two_apps (Some name) w = (Ok (a1, a2), w') /\
    dict_getitem (app_config a1) "CORS_ORIGINS" w' = (Ok v, w') /\
    list_append v x w' = (Ok tt, w'') /\
    settings a2 w' "CORS_ORIGINS" = Some (SList (cors_items (environ w))) /\
    settings a2 w'' "CORS_ORIGINS" = Some (SList (cors_items (environ w) ++ [x])).
Proof.
  intros Hok Hname.
  destruct (two_apps_store w name Hok Hname)
    as (a1 & a2 & w' & d & Hrun & Ha1 & Ha2 & Hheap & _ & Hcors & _).
  assert (next_loc w <> S (next_loc w) /\ next_loc w <> S (S (next_loc w)) /\
          S (next_loc w) <> S (S (next_loc w))) as (Hn1 & Hn2 & Hn3) by lia.
  eexists a1, a2, w', (VRef (next_loc w)), _. split; [exact Hrun|]. split.
  { unfold dict_getitem, read_dict, bind. rewrite Ha1, Hheap.
    rewrite lookup_insert_ne, lookup_insert_eq by done. by rewrite Hcors. }
  split.
  { unfold list_append. rewrite Hheap.
    rewrite !lookup_insert_ne, lookup_insert_eq by done. reflexivity. }
  unfold settings. rewrite Ha2. cbn [heap with_heap].
  rewrite lookup_insert_ne by done. rewrite Hheap, lookup_insert_eq, Hcors.
  cbn [fmap option_fmap option_map observe heap with_heap].
  rewrite Hheap, lookup_insert_eq.
  by rewrite !lookup_insert_ne, lookup_insert_eq by done.
Qed.

(** C3, as the code has it: the two applications have distinct settings
    dictionaries, so assigning a key in one takes effect there and
    leaves every key of the other as it was; the value under
    CORS_ORIGINS is one list object that both dictionaries refer to. *)
Theorem factory_instances_rebinding (w : world User) name :
  env_ints_ok (environ w) = true ->
  name ∈ profile_names ->
  exists a1 a2 w',
    two_apps (Some name) w = (Ok (a1, a2), w') /\
    app_config a1 <> app_config a2 /\
    (forall k v, exists w'',
       dict_setitem (app_config a1) k v w' = (Ok tt, w'') /\
       settings a1 w'' k = Some (observe w'' v) /\
       forall k', settings a2 w'' k' = settings a2 w' k') /\
    (forall k v, exists w'',
       dict_setitem (app_config a2) k v w' = (Ok tt, w'') /\
       settings a2 w'' k = Some (observe w'' v) /\
       forall k', settings a1 w'' k' = settings a1 w' k') /\
    exists l,
      dict_getitem (app_config a1) "CORS_ORIGINS" w' = (Ok (VRef l), w') /\
      dict_getitem (app_config a2) "CORS_ORIGINS" w' = (Ok (VRef l), w').
Proof.
  intros Hok Hname.
  destruct (two_apps_store w name Hok Hname)
    as (a1 & a2 & w' & d & Hrun & Ha1 & Ha2 & Hheap & _ & Hcors & Hrefs).
  assert (next_loc w <> S (next_loc w) /\ next_loc w <> S (S (next_loc w)) /\
          S (next_loc w) <> S (S (next_loc w))) as (Hn1 & Hn2 & Hn3) by lia.
  assert (heap w' !! app_config a1 = Some (ODict d)) as Hd1.
  { by rewrite Ha1, Hheap, lookup_insert_ne, lookup_insert_eq. }
  assert (heap w' !! app_config a2 = Some (ODict d)) as Hd2.
  { by rewrite Ha2, Hheap, lookup_insert_eq. }
  exists a1, a2, w'. split; [exact Hrun|]. split; [rewrite Ha1, Ha2; lia|].
  split; [|split].
  - intros k v. eexists. split.
    { unfold dict_setitem. erewrite bind_ok; [reflexivity|].
      unfold read_dict. by rewrite Hd1. }
    split.
    { unfold settings, write_obj. cbn [heap with_heap].
      rewrite !lookup_insert_eq. reflexivity. }
    apply (settings_frame _ _ _ d); [exact Hd2| |].
    + cbn [heap with_heap]. rewrite lookup_insert_ne; [exact Hd2|].
      rewrite Ha1, Ha2. lia.
    + intros k' l Hl. apply Hrefs in Hl as ->. cbn [heap with_heap].
      rewrite lookup_insert_ne; [done|]. rewrite Ha1. lia.
  - intros k v. eexists. split.
    { unfold dict_setitem. erewrite bind_ok; [reflexivity|].
      unfold read_dict. by rewrite Hd2. }
    split.
    { unfold settings, write_obj. cbn [heap with_heap].
      rewrite !lookup_insert_eq. reflexivity. }
    apply (settings_frame _ _ _ d); [exact Hd1| |].
    + cbn [heap with_heap]. rewrite lookup_insert_ne; [exact Hd1|].
      rewrite Ha1, Ha2. lia.
    + intros k' l Hl. apply Hrefs in Hl as ->. cbn [heap with_heap].
      rewrite lookup_insert_ne; [done|]. rewrite Ha2. lia.
  - exists (next_loc w). unfold dict_getitem, read_dict, bind.
    by rewrite Hd1, Hd2, Hcors.
Qed.

End Instances.

(** ** Further properties of the configuration module *)

Section ModuleFields.
Context {User : Type} `{UserModel User}.

Lemma environ_int_inv key d (w w' : world User) r :
  environ_int key d w = (r, w') ->
  w' = w /\
  match r with
  | Ok n => match environ w !! key with
            | Some s => Py.py_int s = Some n
            | None => n = d
            end
  | Raise e => e = ValueError
  end.
Proof.
  unfold environ_int. destruct (environ w !! key) as [s|].
  - destruct (Py.py_int s); by intros [= <- <-].
  - by intros [= <- <-].
Qed.

(** A successful import, with the two integers it read. *)
Ltac import_cases Himp :=
  match type of Himp with
  | import_config ?w = _ =>
      destruct w as [env base bp h n tabs users apps];
      revert Himp;
      cbv [import_config Config_body DevelopmentConfig_body ProductionConfig_body
           TestingConfig_body bind ret raise environ_get get_base_dir
           alloc import_world with_heap cors_items env_flag
           environ base_dir heap next_loc routes_api_bp db_tables db_users db_apps];
      let n1 := fresh "n1" in let n2 := fresh "n2" in
      let Emax := fresh "Emax" in let Ecount := fresh "Ecount" in
      destruct (environ_int "LOG_MAX_BYTES" _ _) as [[n1|?] ?] eqn:Emax;
        [|intros [=]];
      apply environ_int_inv in Emax as [-> Emax];
      destruct (environ_int "LOG_BACKUP_COUNT" _ _) as [[n2|?] ?] eqn:Ecount;
        [|intros [=]];
      apply environ_int_inv in Ecount as [-> Ecount];
      cbn [environ] in Emax, Ecount;
      intros [= <-]
  end.

(** The four entries of [config]. *)
Lemma profile_table (w w1 : world User) m :
  import_config w = (Ok m, w1) ->
  config m !! "development" = Some (DevelopmentConfig m) /\
  config m !! "production" = Some (ProductionConfig m) /\
  config m !! "testing" = Some (TestingConfig m) /\
  config m !! "default" = Some (DevelopmentConfig m).
Proof.
  intros Himp. rewrite (import_config_table _ _ _ Himp).
  split; [apply lookup_insert_eq|].
  split; [rewrite lookup_insert_ne by done; apply lookup_insert_eq|].
  split; [rewrite !lookup_insert_ne by done; apply lookup_insert_eq|].
  rewrite !lookup_insert_ne by done. apply lookup_insert_eq.
Qed.

Lemma env_ints_ok_malformed env :
  env_ints_ok env = false <->
  malformed_int env "LOG_MAX_BYTES" \/ malformed_int env "LOG_BACKUP_COUNT".
Proof.
  unfold env_ints_ok, int_var_ok, malformed_int. split.
  - intros Hbad.
    destruct (env !! "LOG_MAX_BYTES") as [s1|].
    + destruct (Py.py_int s1) as [n1|] eqn:E1; [|left; by eexists].
      rewrite bool_decide_eq_true_2 in Hbad by (by eexists).
      destruct (env !! "LOG_BACKUP_COUNT") as [s2|]; [|done].
      destruct (Py.py_int s2) as [n2|] eqn:E2; [|right; by eexists].
      by rewrite bool_decide_eq_true_2 in Hbad by (by eexists).
    + destruct (env !! "LOG_BACKUP_COUNT") as [s2|]; [|done].
      destruct (Py.py_int s2) as [n2|] eqn:E2; [|right; by eexists].
      by rewrite bool_decide_eq_true_2 in Hbad by (by eexists).
  - intros [(s & -> & Hs)|(s & -> & Hs)].
    + rewrite bool_decide_eq_false_2; [done|]. rewrite Hs. by intros [? [=]].
    + rewrite (bool_decide_eq_false_2 (is_Some (Py.py_int s)));
        [apply andb_false_r|]. rewrite Hs. by intros [? [=]].
Qed.

(** X1: the module fails to load, with [ValueError], exactly when
    LOG_MAX_BYTES or LOG_BACKUP_COUNT is set to a text that [int]
    rejects; then no application can be started, whatever the profile.
    In every other environment the module loads. *)
Theorem import_fails_iff_malformed_int (w : world User) :
  (fst (import_config w) = Raise ValueError <->
   malformed_int (environ w) "LOG_MAX_BYTES" \/
   malformed_int (environ w) "LOG_BACKUP_COUNT") /\
  (fst (import_config w) = Raise ValueError ->
   forall config_name, fst (start_app config_name w) = Raise ValueError) /\
  (fst (import_config w) <> Raise ValueError ->
   exists m, import_config w = (Ok m, import_world w)).
Proof.
  destruct (env_ints_ok (environ w)) eqn:Hok.
  - destruct (import_config_ok w Hok) as [m Himp]. rewrite Himp. cbn [fst].
    split; [|split].
    + split; [done|]. intros Hbad%env_ints_ok_malformed. congruence.
    + done.
    + intros _. by exists m.
  - destruct (import_config_fails w Hok) as [w1 Himp]. rewrite Himp. cbn [fst].
    split; [|split].
    + split; [|done]. intros _. by apply env_ints_ok_malformed.
    + intros _ name. unfold start_app. by erewrite bind_raise by exact Himp.
    + done.
Qed.

(** X2: in every profile the two integer settings hold the number that
    [int] reads from the variable, of either sign and with no check of
    its range, and the defaults 10485760 and 5 when the variable is
    unset. *)
Theorem integer_settings (w : world User) :
  env_ints_ok (environ w) = true ->
  exists m,
    import_config w = (Ok m, import_world w) /\
    forall name, name ∈ profile_names ->
      exists cls,
        config m !! name = Some cls /\
        (forall s n, environ w !! "LOG_MAX_BYTES" = Some s -> Py.py_int s = Some n ->
           getattr cls "LOG_MAX_BYTES" = Some (VInt n)) /\
        (environ w !! "LOG_MAX_BYTES" = None ->
           getattr cls "LOG_MAX_BYTES" = Some (VInt 10485760)) /\
        (forall s n, environ w !! "LOG_BACKUP_COUNT" = Some s -> Py.py_int s = Some n ->
           getattr cls "LOG_BACKUP_COUNT" = Some (VInt n)) /\
        (environ w !! "LOG_BACKUP_COUNT" = None ->
           getattr cls "LOG_BACKUP_COUNT" = Some (VInt 5)).
Proof.
  intros Hok. destruct (import_config_ok w Hok) as [m Himp].
  exists m. split; [exact Himp|]. intros name Hname.
  destruct (config_lookup_profile _ _ _ name Himp Hname) as [cls Hcfg].
  destruct (config_lookup_cases _ _ _ _ _ Himp Hcfg) as [_ Hcls].
  exists cls. split; [exact Hcfg|]. clear Hok Hname Hcfg name.
  import_cases Himp.
  destruct Hcls as [-> | [-> | ->]].
  all: repeat split; intros;
    repeat match goal with
      | Hx : ?e !! ?k = _, E : match ?e !! ?k with _ => _ end |- _ =>
          rewrite Hx in E
      end;
    cbn [environ] in *; simplify_eq; reflexivity.
Qed.

(** The classes behind the four names, with the fields that do not
    depend on the profile. *)
Lemma constant_fields (w w1 : world User) m cls :
  import_config w = (Ok m, w1) ->
  cls = DevelopmentConfig m \/ cls = ProductionConfig m \/ cls = TestingConfig m ->
  getattr cls "WTF_CSRF_ENABLED" = Some (VBool true) /\
  getattr cls "WTF_CSRF_TIME_LIMIT" = Some (VInt 3600) /\
  getattr cls "MAX_CONTENT_LENGTH" = Some (VInt 16777216) /\
  getattr cls "SESSION_COOKIE_HTTPONLY" = Some (VBool true) /\
  getattr cls "SESSION_COOKIE_SAMESITE" = Some (VStr "Lax") /\
  getattr cls "SQLALCHEMY_TRACK_MODIFICATIONS" = Some (VBool false) /\
  getattr cls "SECRET_KEY" =
    Some (VStr (default "dev-key-change-in-production" (environ w !! "SECRET_KEY"))) /\
  getattr cls "RATELIMIT_STORAGE_URL" =
    Some (VStr (default "memory://" (environ w !! "REDIS_URL"))).
Proof.
  intros Himp Hcls. import_cases Himp.
  destruct Hcls as [-> | [-> | ->]]; repeat split; reflexivity.
Qed.

(** X3: the log level of the development profile is LOG_LEVEL, or
    "DEBUG" when unset; that of the production profile is LOG_LEVEL, or
    "INFO" when unset.  Structured logging follows LOG_JSON_FORMAT only
    in the development profile (off when unset); it is always on in
    production and always off in testing. *)
Theorem logging_by_profile (w : world User) :
  env_ints_ok (environ w) = true ->
  exists m dev prod test,
    import_config w = (Ok m, import_world w) /\
    config m !! "development" = Some dev /\
    config m !! "default" = Some dev /\
    config m !! "production" = Some prod /\
    config m !! "testing" = Some test /\
    getattr dev "LOG_LEVEL" = Some (VStr (default "DEBUG" (environ w !! "LOG_LEVEL"))) /\
    getattr prod "LOG_LEVEL" = Some (VStr (default "INFO" (environ w !! "LOG_LEVEL"))) /\
    getattr dev "LOG_JSON_FORMAT"
      = Some (VBool (env_flag (environ w) "LOG_JSON_FORMAT" "False")) /\
    getattr prod "LOG_JSON_FORMAT" = Some (VBool true) /\
    getattr test "LOG_JSON_FORMAT" = Some (VBool false).
Proof.
  intros Hok. destruct (import_config_ok w Hok) as [m Himp].
  destruct (profile_table _ _ _ Himp) as (Hdev & Hprod & Htest & Hdflt).
  exists m, (DevelopmentConfig m), (ProductionConfig m), (TestingConfig m).
  split; [exact Himp|]. split; [exact Hdev|]. split; [exact Hdflt|].
  split; [exact Hprod|]. split; [exact Htest|]. clear Hok Hdev Hprod Htest Hdflt.
  import_cases Himp. repeat split; reflexivity.
Qed.

(** X7: DEBUG is on in the development (and default) profile and off in
    production; the testing profile does not define it.  TESTING is
    defined, and on, in the testing profile only. *)
Theorem debug_and_testing_flags (w : world User) :
  env_ints_ok (environ w) = true ->
  exists m dev prod test,
    import_config w = (Ok m, import_world w) /\
    config m !! "development" = Some dev /\
    config m !! "default" = Some dev /\
    config m !! "production" = Some prod /\
    config m !! "testing" = Some test /\
    getattr dev "DEBUG" = Some (VBool true) /\
    getattr prod "DEBUG" = Some (VBool false) /\
    getattr test "DEBUG" = None /\
    getattr test "TESTING" = Some (VBool true) /\
    getattr dev "TESTING" = None /\
    getattr prod "TESTING" = None.
Proof.
  intros Hok. destruct (import_config_ok w Hok) as [m Himp].
  destruct (profile_table _ _ _ Himp) as (Hdev & Hprod & Htest & Hdflt).
  exists m, (DevelopmentConfig m), (ProductionConfig m), (TestingConfig m).
  split; [exact Himp|]. split; [exact Hdev|]. split; [exact Hdflt|].
  split; [exact Hprod|]. split; [exact Htest|]. clear Hok Hdev Hprod Htest Hdflt.
  import_cases Himp. repeat split; reflexivity.
Qed.

Lemma lower_char_t c : Py.lower_char c = "t"%char -> c = "t"%char \/ c = "T"%char.
Proof.
  destruct c as [[] [] [] [] [] [] [] []]; vm_compute; intros [=]; auto.
Qed.

Lemma lower_char_r c : Py.lower_char c = "r"%char -> c = "r"%char \/ c = "R"%char.
Proof.
  destruct c as [[] [] [] [] [] [] [] []]; vm_compute; intros [=]; auto.
Qed.

Lemma lower_char_u c : Py.lower_char c = "u"%char -> c = "u"%char \/ c = "U"%char.
Proof.
  destruct c as [[] [] [] [] [] [] [] []]; vm_compute; intros [=]; auto.
Qed.

Lemma lower_char_e c : Py.lower_char c = "e"%char -> c = "e"%char \/ c = "E"%char.
Proof.
  destruct c as [[] [] [] [] [] [] [] []]; vm_compute; intros [=]; auto.
Qed.

(** The texts that [lower] sends to "true". *)
Lemma str_lower_true_iff s : Py.str_lower s = "true" <-> s ∈ true_spellings.
Proof.
  split.
  - destruct s as [|c1 [|c2 [|c3 [|c4 [|c5 s]]]]]; try (by intros [=]).
    cbn [Py.str_lower]. intros [= H1 H2 H3 H4].
    apply lower_char_t in H1. apply lower_char_r in H2.
    apply lower_char_u in H3. apply lower_char_e in H4.
    unfold true_spellings.
    destruct H1 as [-> | ->], H2 as [-> | ->], H3 as [-> | ->], H4 as [-> | ->];
      repeat (apply elem_of_cons; first [left; reflexivity | right]).
  - unfold true_spellings. rewrite !elem_of_cons, elem_of_nil.
    intros Hs. repeat (destruct Hs as [-> | Hs]; [reflexivity|]). done.
Qed.

(** X4: in every profile the secure-cookie flag is on exactly when
    SESSION_SECURE is set to one of the sixteen upper and lower case
    spellings of "true"; any other text (such as "1", "yes" or " true")
    and an unset variable leave it off. *)
Theorem secure_flag_spellings (w : world User) :
  env_ints_ok (environ w) = true ->
  exists m flag,
    import_config w = (Ok m, import_world w) /\
    (flag = true <->
     exists s, environ w !! "SESSION_SECURE" = Some s /\ s ∈ true_spellings) /\
    forall name, name ∈ profile_names ->
      exists cls,
        config m !! name = Some cls /\
        getattr cls "SESSION_COOKIE_SECURE" = Some (VBool flag).
Proof.
  intros Hok. destruct (import_config_ok w Hok) as [m Himp].
  exists m, (env_flag (environ w) "SESSION_SECURE" "False").
  split; [exact Himp|]. split.
  - unfold env_flag. rewrite String.eqb_eq, str_lower_true_iff.
    destruct (environ w !! "SESSION_SECURE") as [s|]; cbn [default].
    + split; [intros Hs; by exists s|]. by intros (s' & [= <-] & Hs).
    + split; [|by intros (s' & [=] & _)].
      unfold true_spellings. rewrite !elem_of_cons, elem_of_nil.
      intros Hs. repeat (destruct Hs as [Hs | Hs]; [discriminate Hs|]). done.
  - intros name Hname.
    destruct (config_lookup_profile _ _ _ name Himp Hname) as [cls Hcfg].
    destruct (config_lookup_cases _ _ _ _ _ Himp Hcfg) as [_ Hcls].
    destruct (inherited_fields _ _ _ cls Himp Hcls) as (Hflag & _).
    by exists cls.
Qed.

Lemma str_split_length sep s :
  length (Py.str_split sep s) = S (str_count sep s).
Proof.
  induction s as [|c r IH]; [done|]. cbn [Py.str_split str_count].
  destruct (Ascii.eqb c sep); cbn [length]; [by rewrite IH|].
  destruct (str_split_cons sep r) as (h & t & E). rewrite E in IH |- *. exact IH.
Qed.

(** X13: the list of allowed origins has one entry more than the text
    has commas, so it is never empty: an empty CORS_ORIGINS gives the one
    entry "", and an unset CORS_ORIGINS gives the two local addresses. *)
Theorem origins_count (w : world User) :
  env_ints_ok (environ w) = true ->
  exists m items,
    import_config w = (Ok m, import_world w) /\
    getattr (Config m) "CORS_ORIGINS" = Some (VRef (next_loc w)) /\
    heap (import_world w) !! next_loc w = Some (OList items) /\
    length items
      = S (str_count ","
             (default "http://localhost:5001,https://localhost:5001"
                (environ w !! "CORS_ORIGINS"))) /\
    (environ w !! "CORS_ORIGINS" = Some "" -> items = [VStr ""]) /\
    (environ w !! "CORS_ORIGINS" = None ->
     items = [VStr "http://localhost:5001"; VStr "https://localhost:5001"]).
Proof.
  intros Hok. destruct (import_config_ok w Hok) as [m Himp].
  exists m, (cors_items (environ w)). split; [exact Himp|].
  split; [clear Hok; import_cases Himp; reflexivity|].
  split; [unfold import_world; destruct w; apply lookup_insert_eq|].
  unfold cors_items. split; [by rewrite length_fmap, str_split_length|].
  split; by intros ->.
Qed.

(** The log level of the development and production classes. *)
Lemma development_log_level (w w1 : world User) m :
  import_config w = (Ok m, w1) ->
  getattr (DevelopmentConfig m) "LOG_LEVEL"
    = Some (VStr (default "DEBUG" (environ w !! "LOG_LEVEL"))).
Proof. intros Himp. import_cases Himp. reflexivity. Qed.

Lemma production_log_level (w w1 : world User) m :
  import_config w = (Ok m, w1) ->
  getattr (ProductionConfig m) "LOG_LEVEL"
    = Some (VStr (default "INFO" (environ w !! "LOG_LEVEL"))).
Proof. intros Himp. import_cases Himp. reflexivity. Qed.

(** The database address of the development and production classes. *)
Lemma database_uri_field (w w1 : world User) m cls :
  import_config w = (Ok m, w1) ->
  cls = DevelopmentConfig m \/ cls = ProductionConfig m ->
  getattr cls "SQLALCHEMY_DATABASE_URI" =
    Some (VStr (default
                  ("sqlite:///" ++ path_div (path_div (base_dir w) "data") "orb.db")
                  (environ w !! "DATABASE_URL"))).
Proof.
  intros Himp Hcls. import_cases Himp.
  destruct Hcls as [-> | ->]; reflexivity.
Qed.

End ModuleFields.

(** ** Identifiers written in decimal *)

Section Decimal.

















End Decimal.

(** ** Further properties of the factory and of the user loader *)

Section FactoryMore.
Context {User : Type} `{UserModel User}.



(** X8: for a profile class that carries a database address, every
    upper-case attribute of the class, inherited ones included, is in
    the settings of the new application with the value the class gives
    it; an attribute whose name is not upper case (such as [__doc__]) is
    not copied. *)
Theorem settings_are_upper_case_attributes cfg name cls (w : world User) :
  cfg !! name = Some cls ->
  is_Some (getattr cls "SQLALCHEMY_DATABASE_URI") ->
  exists a w',
    create_app cfg (Some name) w = (Ok a, w') /\
    (forall k v, Py.str_isupper k = true -> getattr cls k = Some v ->
       settings a w' k = Some (observe w' v)) /\
    (forall k, Py.str_isupper k = false -> is_Some (getattr cls k) ->
       settings a w' k = None).
Proof.
  intros Hcfg Huri. eexists _, _. split; [by apply create_app_run|].
  split.
  - intros k v Hup Hv. by apply factory_world_observe.
  - intros k Hlow _. unfold settings. destruct w; cbn.
    by rewrite lookup_insert_eq, factory_settings, Hlow.
Qed.


(** X9: what a profile class defines is fixed when the module is
    imported: under every upper-case attribute of the class, an
    application made after the environment has changed has the same
    setting as one made before. *)
Theorem settings_fixed_at_import (w : world User) name env' :
  env_ints_ok (environ w) = true ->
  name ∈ profile_names ->
  exists m cls a1 w1 a2 w2,
    import_config w = (Ok m, import_world w) /\
    config m !! name = Some cls /\
    create_app (config m) (Some name) (import_world w) = (Ok a1, w1) /\
    create_app (config m) (Some name) (with_environ env' (import_world w)) = (Ok a2, w2) /\
    forall k, Py.str_isupper k = true -> is_Some (getattr cls k) ->
              settings a2 w2 k = settings a1 w1 k.
Proof.
  intros Hok Hname.
  destruct (profile_class w name Hok Hname) as (m & cls & Himp & Hcfg & _ & Huri).
  eexists m, cls, _, _, _, _. split; [exact Himp|]. split; [exact Hcfg|].
  split; [by apply create_app_run|].
  split; [by rewrite (create_app_run _ _ _ _ Hcfg Huri)|].
  intros k _ _. by destruct w.
Qed.

(** X11: in every profile the application carries a login manager that
    sends visitors who are not logged in to the view "auth.login", with
    the message "Please log in to access this page." in the category
    "info", and whose loader is [load_user]; the database extension is
    attached before the migration extension. *)
Theorem login_manager_configured (w : world User) name :
  env_ints_ok (environ w) = true ->
  name ∈ profile_names ->
  exists m a w' lm,
    start_app (Some name) w = (Ok (m, a), w') /\
    app_login_manager a = Some lm /\
    login_view lm = Some "auth.login" /\
    login_message lm = "Please log in to access this page." /\
    login_message_category lm = "info" /\
    user_callback lm = Some load_user /\
    extensions a = ["sqlalchemy"; "migrate"].
Proof.
  intros Hok Hname.
  destruct (start_app_run w name Hok Hname)
    as (m & cls & a & Hstart & _ & _ & _ & _ & _ & Hext & Hlm & _).
  eexists m, a, _, _. split; [exact Hstart|]. split; [exact Hlm|]. by rewrite Hext.
Qed.

(** X5: in every profile, and whatever the environment holds, the
    application has request-forgery protection on with a limit of 3600
    seconds, an upload limit of 16777216 bytes, HttpOnly session cookies
    with SameSite "Lax", and modification tracking off. *)
Theorem fixed_security_settings (w : world User) name :
  env_ints_ok (environ w) = true ->
  name ∈ profile_names ->
  exists m a w',
    start_app (Some name) w = (Ok (m, a), w') /\
    settings a w' "WTF_CSRF_ENABLED" = Some (SValue (VBool true)) /\
    settings a w' "WTF_CSRF_TIME_LIMIT" = Some (SValue (VInt 3600)) /\
    settings a w' "MAX_CONTENT_LENGTH" = Some (SValue (VInt 16777216)) /\
    settings a w' "SESSION_COOKIE_HTTPONLY" = Some (SValue (VBool true)) /\
    settings a w' "SESSION_COOKIE_SAMESITE" = Some (SValue (VStr "Lax")) /\
    settings a w' "SQLALCHEMY_TRACK_MODIFICATIONS" = Some (SValue (VBool false)).
Proof.
  intros Hok Hname.
  destruct (start_app_run w name Hok Hname)
    as (m & cls & a & Hstart & Himp & _ & Hcls & _ & Ha & _).
  destruct (constant_fields _ _ _ cls Himp Hcls)
    as (H1 & H2 & H3 & H4 & H5 & H6 & _).
  exists m, a, (factory_world cls (import_world w)). split; [exact Hstart|].
  repeat split; by eapply factory_world_settings.
Qed.

(** X6: in every profile the secret key and the rate-limit store are
    the texts of SECRET_KEY and REDIS_URL, and outside the testing
    profile the database address is the text of DATABASE_URL, each
    taken as it is; when the variable is unset they are
    "dev-key-change-in-production" (in production too), "memory://" and
    the SQLite file data/orb.db below the base directory. *)
Theorem text_settings (w : world User) name :
  env_ints_ok (environ w) = true ->
  name ∈ profile_names ->
  exists m cls,
    import_config w = (Ok m, import_world w) /\
    config m !! name = Some cls /\
    getattr cls "SECRET_KEY"
      = Some (VStr (default "dev-key-change-in-production"
                      (environ w !! "SECRET_KEY"))) /\
    getattr cls "RATELIMIT_STORAGE_URL"
      = Some (VStr (default "memory://" (environ w !! "REDIS_URL"))) /\
    (name <> "testing" ->
     getattr cls "SQLALCHEMY_DATABASE_URI"
       = Some (VStr (default
                       ("sqlite:///" ++
                        path_div (path_div (base_dir w) "data") "orb.db")
                       (environ w !! "DATABASE_URL")))).
Proof.
  intros Hok Hname.
  destruct (profile_class w name Hok Hname) as (m & cls & Himp & Hcfg & Hcls & _).
  destruct (constant_fields _ _ _ cls Himp Hcls) as (_ & _ & _ & _ & _ & _ & H7 & H8).
  exists m, cls. split; [exact Himp|]. split; [exact Hcfg|].
  split; [exact H7|]. split; [exact H8|].
  intros Hnt. apply (database_uri_field _ _ _ _ Himp).
  destruct (profile_table _ _ _ Himp) as (Hdev & Hprod & Htest & Hdflt).
  unfold profile_names in Hname. rewrite !elem_of_cons, elem_of_nil in Hname.
  destruct Hname as [->|[->|[->|[->|[]]]]]; simplify_eq; auto.
Qed.



End FactoryMore.

(** ** The model at work on the concrete deployment *)

Example py_int_plain : Py.py_int "42" = Some 42.
Proof. reflexivity. Qed.

Example py_int_blank_sign : Py.py_int "  -1_000 " = Some (-1000).
Proof. reflexivity. Qed.

Example py_int_letters : Py.py_int "abc" = None.
Proof. reflexivity. Qed.

Example py_int_empty : Py.py_int "" = None.
Proof. reflexivity. Qed.

Example py_int_double_underscore : Py.py_int "1__0" = None.
Proof. reflexivity. Qed.

Example str_lower_true : Py.str_lower "TrUe" = "true".
Proof. reflexivity. Qed.

Example str_split_empty : Py.str_split "," "" = [""].
Proof. reflexivity. Qed.

Example str_split_trailing : Py.str_split "," "a,,b," = ["a"; ""; "b"; ""].
Proof. reflexivity. Qed.

Example str_isupper_key : Py.str_isupper "BASE_DIR" = true.
Proof. reflexivity. Qed.

Example str_isupper_dunder : Py.str_isupper "__doc__" = false.
Proof. reflexivity. Qed.

Lemma sample_env_ok : env_ints_ok (environ (sample_world sample_env)) = true.
Proof. reflexivity. Qed.

Lemma empty_env_ok : env_ints_ok (environ (sample_world ∅)) = true.
Proof. reflexivity. Qed.

Lemma development_profile : "development" ∈ profile_names.
Proof. apply elem_of_cons. by left. Qed.

Lemma production_profile : "production" ∈ profile_names.
Proof. apply elem_of_cons. right. apply elem_of_cons. by left. Qed.

Lemma testing_profile : "testing" ∈ profile_names.
Proof. do 2 (apply elem_of_cons; right). apply elem_of_cons. by left. Qed.

Lemma staging_no_profile : "staging" ∉ profile_names.
Proof.
  unfold profile_names. rewrite !elem_of_cons, elem_of_nil.
  by intros [?|[?|[?|[?|?]]]].
Qed.

(** With a malformed integer variable the module does not load. *)
Example import_config_bad_int :
  exists w1,
    import_config (sample_world (<["LOG_MAX_BYTES" := "ten"]> ∅))
    = (Raise ValueError, w1).
Proof. by apply import_config_fails. Qed.



Lemma testing_profile_fixed_witness :
  exists m w1 cls a w2,
    import_config
      (with_environ
         (assign_var "DATABASE_URL" (Some "postgresql://db/orb")
            (assign_var "LOG_LEVEL" None (environ (sample_world sample_env))))
         (sample_world sample_env)) = (Ok m, w1) /\
    config m !! "testing" = Some cls /\
    getattr cls "SQLALCHEMY_DATABASE_URI" = Some (VStr "sqlite:///:memory:") /\
    getattr cls "LOG_LEVEL" = Some (VStr "WARNING") /\
    create_app (config m) (Some "testing") w1 = (Ok a, w2) /\
    settings a w2 "SQLALCHEMY_DATABASE_URI" = Some (SValue (VStr "sqlite:///:memory:")) /\
    settings a w2 "LOG_LEVEL" = Some (SValue (VStr "WARNING")).
Proof.
  apply (testing_profile_fixed (sample_world sample_env)
           (Some "postgresql://db/orb") None).
  reflexivity.
Defined.

(** C3 does not hold for a change made in place: the list under
    CORS_ORIGINS is shared, so an origin appended through the first
    application's settings shows up in the second's. *)
Lemma shared_origins_list :
  exists a1 a2 w' v w'',
    two_apps (Some "development") (sample_world ∅) = (Ok (a1, a2), w') /\
    dict_getitem (app_config a1) "CORS_ORIGINS" w' = (Ok v, w') /\
    list_append v (VStr "http://evil.example") w' = (Ok tt, w'') /\
    settings a2 w' "CORS_ORIGINS"
      = Some (SList [VStr "http://localhost:5001"; VStr "https://localhost:5001"]) /\
    settings a2 w'' "CORS_ORIGINS"
      = Some (SList [VStr "http://localhost:5001"; VStr "https://localhost:5001";
                     VStr "http://evil.example"]) /\
    settings a2 w'' "CORS_ORIGINS" <> settings a2 w' "CORS_ORIGINS".
Proof.
  destruct (append_seen_by_second (sample_world ∅) "development"
              (VStr "http://evil.example") empty_env_ok development_profile)
    as (a1 & a2 & w' & v & w'' & Hrun & Hget & Happ & Hbefore & Hafter).
  exists a1, a2, w', v, w''. split; [exact Hrun|]. split; [exact Hget|].
  split; [exact Happ|]. split; [exact Hbefore|]. split; [exact Hafter|].
  rewrite Hbefore, Hafter. discriminate.
Qed.

Lemma factory_instances_rebinding_witness :
  exists a1 a2 w',
    two_apps (Some "development") (sample_world ∅) = (Ok (a1, a2), w') /\
    app_config a1 <> app_config a2 /\
    (exists w'',
       dict_setitem (app_config a1) "LOG_LEVEL" (VStr "CRITICAL") w' = (Ok tt, w'') /\
       settings a1 w'' "LOG_LEVEL" = Some (SValue (VStr "CRITICAL")) /\
       settings a2 w'' "LOG_LEVEL" = settings a2 w' "LOG_LEVEL").
Proof.
  destruct (factory_instances_rebinding (sample_world ∅) "development")
    as (a1 & a2 & w' & Hrun & Hne & H1 & _);
    [reflexivity|apply development_profile|].
  exists a1, a2, w'. split; [exact Hrun|]. split; [exact Hne|].
  destruct (H1 "LOG_LEVEL" (VStr "CRITICAL")) as (w'' & Hset & Hown & Hother).
  exists w''. split; [exact Hset|]. split; [exact Hown|]. apply Hother.
Defined.

Lemma create_app_keeps_tables_witness :
  exists m a w',
    start_app (Some "production") (sample_world sample_env) = (Ok (m, a), w') /\
    "migrate" ∈ extensions a /\
    db_tables w' = db_tables (sample_world sample_env).
Proof.
  apply (create_app_keeps_tables (User:=sample_user));
    [reflexivity|apply production_profile].
Defined.

Lemma session_cookie_secure_flag_witness :
  (exists m w1 cls,
     import_config (sample_world sample_env) = (Ok m, w1) /\
     config m !! "production" = Some cls /\
     getattr cls "SESSION_COOKIE_SECURE" = Some (VBool true)) /\
  (exists m w1 cls,
     import_config (sample_world ∅) = (Ok m, w1) /\
     config m !! "production" = Some cls /\
     getattr cls "SESSION_COOKIE_SECURE" = Some (VBool false)).
Proof.
  split.
  - destruct (session_cookie_secure_flag (sample_world sample_env))
      as (m & w1 & Himp & Hall); [reflexivity|].
    destruct (Hall "production" production_profile) as (cls & Hcls & Hset & _).
    exists m, w1, cls. split; [exact Himp|]. split; [exact Hcls|].
    apply Hset. reflexivity.
  - destruct (session_cookie_secure_flag (sample_world ∅))
      as (m & w1 & Himp & Hall); [reflexivity|].
    destruct (Hall "production" production_profile) as (cls & Hcls & _ & Hunset).
    exists m, w1, cls. split; [exact Himp|]. split; [exact Hcls|].
    apply Hunset. reflexivity.
Defined.

Lemma cors_origins_split_witness :
  exists m w1 cls l,
    import_config (sample_world sample_env) = (Ok m, w1) /\
    config m !! "testing" = Some cls /\
    getattr cls "CORS_ORIGINS" = Some (VRef l) /\
    heap w1 !! l = Some (OList [VStr "http://a.com"; VStr "http://b.com"]).
Proof.
  destruct (cors_origins_split (sample_world sample_env) "http://a.com,http://b.com")
    as (m & w1 & Himp & _ & _ & Hall); [reflexivity|reflexivity|].
  destruct (Hall "testing" testing_profile) as (cls & l & Hcls & Hattr & _ & Hlist).
  exists m, w1, cls, l. split; [exact Himp|]. split; [exact Hcls|].
  split; [exact Hattr|]. apply Hlist. reflexivity.
Defined.

Lemma profile_resolution_witness :
  exists m,
    import_config (sample_world testing_env)
      = (Ok m, import_world (sample_world testing_env)) /\
    (exists a w',
       create_app (config m) (Some "production") (import_world (sample_world testing_env))
         = (Ok a, w') /\
       settings a w' "LOG_LEVEL" = Some (SValue (VStr "INFO"))) /\
    (exists a w',
       create_app (config m) None (import_world (sample_world testing_env)) = (Ok a, w') /\
       settings a w' "LOG_LEVEL" = Some (SValue (VStr "WARNING"))) /\
    create_app (config m) (Some "staging") (import_world (sample_world testing_env))
      = (Raise (KeyError "staging"), flask_world (import_world (sample_world testing_env))).
Proof.
  destruct (import_config_ok (sample_world testing_env) eq_refl) as [m Himp].
  destruct (profile_table _ _ _ Himp) as (_ & Hprod & Htest & _).
  destruct (profile_resolution (config m) (import_world (sample_world testing_env)))
    as (Hnamed & Henv & _).
  exists m. split; [exact Himp|]. split; [|split].
  - pose proof (Hnamed "production") as Huse. unfold uses_profile in Huse.
    rewrite Hprod in Huse.
    destruct (inherited_fields _ _ _ (ProductionConfig m) Himp) as (_ & _ & uri & Huri);
      [tauto|].
    destruct Huse as (a & w' & Hrun & Hall); [by eexists|].
    exists a, w'. split; [exact Hrun|].
    apply (Hall "LOG_LEVEL" (VStr "INFO")); [reflexivity|].
    by rewrite (production_log_level _ _ _ Himp).
  - pose proof (Henv "testing" eq_refl) as Huse. unfold uses_profile in Huse.
    rewrite Htest in Huse.
    destruct (testing_fields _ _ _ Himp) as [Huri Hlevel].
    destruct Huse as (a & w' & Hrun & Hall); [by eexists|].
    exists a, w'. split; [exact Hrun|].
    by apply (Hall "LOG_LEVEL" (VStr "WARNING")).
  - pose proof (Hnamed "staging") as Huse. unfold uses_profile in Huse.
    by rewrite (config_lookup_other _ _ _ _ Himp staging_no_profile) in Huse.
Defined.


Lemma default_is_development_witness :
  exists m w1 cls,
    import_config (sample_world sample_env) = (Ok m, w1) /\
    config m !! "default" = Some cls /\
    config m !! "development" = Some cls.
Proof.
  destruct (default_is_development (sample_world sample_env))
    as (m & w1 & cls & Himp & Hdflt & Hdev & _); [reflexivity|].
  exists m, w1, cls. split; [exact Himp|]. split; [exact Hdflt|]. exact Hdev.
Defined.

Lemma unknown_profile_key_error_witness :
  exists m w1 w2,
    import_config (sample_world sample_env) = (Ok m, w1) /\
    create_app (config m) (Some "staging") w1 = (Raise (KeyError "staging"), w2) /\
    create_app (config m) None w1 = (Raise (KeyError "staging"), w2) /\
    db_apps w2 = [].
Proof.
  destruct (unknown_profile_key_error (sample_world sample_env) "staging")
    as (m & Himp & Hdirect & Henv & Hdb & _);
    [reflexivity|apply staging_no_profile|].
  eexists m, _, _. split; [exact Himp|]. split; [exact Hdirect|].
  split; [apply Henv; reflexivity|]. rewrite Hdb. reflexivity.
Defined.

(** ** Further evaluations on the concrete deployment *)

Lemma tuned_env_ok : env_ints_ok (environ (sample_world tuned_env)) = true.
Proof. reflexivity. Qed.

Lemma import_fails_iff_malformed_int_witness :
  fst (import_config (sample_world (<["LOG_MAX_BYTES" := "ten"]> ∅))) = Raise ValueError /\
  fst (start_app (Some "testing") (sample_world (<["LOG_MAX_BYTES" := "ten"]> ∅)))
    = Raise ValueError /\
  exists m, import_config (sample_world ∅) = (Ok m, import_world (sample_world ∅)).
Proof.
  assert (fst (import_config (sample_world (<["LOG_MAX_BYTES" := "ten"]> ∅)))
          = Raise ValueError) as Hfail.
  { apply import_fails_iff_malformed_int. left. exists "ten". split; reflexivity. }
  split; [exact Hfail|]. split.
  - by apply import_fails_iff_malformed_int.
  - apply import_fails_iff_malformed_int.
    destruct (import_config_ok (sample_world ∅) empty_env_ok) as [m ->]. discriminate.
Defined.

Lemma integer_settings_witness :
  (exists m cls,
     import_config (sample_world tuned_env) = (Ok m, import_world (sample_world tuned_env)) /\
     config m !! "production" = Some cls /\
     getattr cls "LOG_MAX_BYTES" = Some (VInt 1000) /\
     getattr cls "LOG_BACKUP_COUNT" = Some (VInt (-3))) /\
  (exists m cls,
     import_config (sample_world ∅) = (Ok m, import_world (sample_world ∅)) /\
     config m !! "production" = Some cls /\
     getattr cls "LOG_MAX_BYTES" = Some (VInt 10485760) /\
     getattr cls "LOG_BACKUP_COUNT" = Some (VInt 5)).
Proof.
  split.
  - destruct (integer_settings (sample_world tuned_env)) as (m & Himp & Hall);
      [reflexivity|].
    destruct (Hall "production" production_profile)
      as (cls & Hcls & Hmax & _ & Hcount & _).
    exists m, cls. split; [exact Himp|]. split; [exact Hcls|]. split.
    + apply (Hmax " 1_000 "); reflexivity.
    + apply (Hcount "-3"); reflexivity.
  - destruct (integer_settings (sample_world ∅)) as (m & Himp & Hall);
      [reflexivity|].
    destruct (Hall "production" production_profile)
      as (cls & Hcls & _ & Hmax & _ & Hcount).
    exists m, cls. split; [exact Himp|]. split; [exact Hcls|]. split.
    + apply Hmax. reflexivity.
    + apply Hcount. reflexivity.
Defined.

Lemma logging_by_profile_witness :
  exists m dev prod test,
    import_config (sample_world sample_env)
      = (Ok m, import_world (sample_world sample_env)) /\
    config m !! "development" = Some dev /\
    config m !! "production" = Some prod /\
    config m !! "testing" = Some test /\
    getattr dev "LOG_LEVEL" = Some (VStr "ERROR") /\
    getattr prod "LOG_LEVEL" = Some (VStr "ERROR") /\
    getattr dev "LOG_JSON_FORMAT" = Some (VBool false) /\
    getattr prod "LOG_JSON_FORMAT" = Some (VBool true) /\
    getattr test "LOG_JSON_FORMAT" = Some (VBool false).
Proof.
  destruct (logging_by_profile (sample_world sample_env))
    as (m & dev & prod & test & Himp & Hdev & _ & Hprod & Htest
        & H1 & H2 & H3 & H4 & H5); [reflexivity|].
  exists m, dev, prod, test. split; [exact Himp|]. split; [exact Hdev|].
  split; [exact Hprod|]. split; [exact Htest|]. split; [exact H1|].
  split; [exact H2|]. split; [exact H3|]. split; [exact H4|]. exact H5.
Defined.

Lemma secure_flag_spellings_witness :
  exists m cls,
    import_config (sample_world tuned_env)
      = (Ok m, import_world (sample_world tuned_env)) /\
    config m !! "production" = Some cls /\
    getattr cls "SESSION_COOKIE_SECURE" = Some (VBool true).
Proof.
  destruct (secure_flag_spellings (sample_world tuned_env))
    as (m & flag & Himp & Hflag & Hall); [reflexivity|].
  destruct (Hall "production" production_profile) as (cls & Hcls & Hattr).
  exists m, cls. split; [exact Himp|]. split; [exact Hcls|].
  rewrite Hattr. do 2 f_equal. apply Hflag. exists "TRUE". split; [reflexivity|].
  unfold true_spellings.
  repeat (apply elem_of_cons; first [left; reflexivity | right]).
Defined.

Lemma fixed_security_settings_witness :
  exists m a w',
    start_app (Some "production") (sample_world tuned_env) = (Ok (m, a), w') /\
    settings a w' "WTF_CSRF_ENABLED" = Some (SValue (VBool true)) /\
    settings a w' "MAX_CONTENT_LENGTH" = Some (SValue (VInt 16777216)) /\
    settings a w' "SESSION_COOKIE_HTTPONLY" = Some (SValue (VBool true)).
Proof.
  destruct (fixed_security_settings (sample_world tuned_env) "production")
    as (m & a & w' & Hstart & H1 & _ & H3 & H4 & _);
    [reflexivity|apply production_profile|].
  exists m, a, w'. split; [exact Hstart|]. split; [exact H1|].
  split; [exact H3|]. exact H4.
Defined.

Lemma text_settings_witness :
  exists m cls,
    import_config (sample_world tuned_env)
      = (Ok m, import_world (sample_world tuned_env)) /\
    config m !! "production" = Some cls /\
    getattr cls "SECRET_KEY" = Some (VStr "s3cret") /\
    getattr cls "RATELIMIT_STORAGE_URL" = Some (VStr "memory://") /\
    getattr cls "SQLALCHEMY_DATABASE_URI"
      = Some (VStr "sqlite:////srv/orb/data/orb.db").
Proof.
  destruct (text_settings (sample_world tuned_env) "production")
    as (m & cls & Himp & Hcls & H1 & H2 & H3);
    [reflexivity|apply production_profile|].
  exists m, cls. split; [exact Himp|]. split; [exact Hcls|]. split; [exact H1|].
  split; [exact H2|]. apply H3. discriminate.
Defined.

Lemma debug_and_testing_flags_witness :
  exists m dev prod test,
    import_config (sample_world ∅) = (Ok m, import_world (sample_world ∅)) /\
    config m !! "development" = Some dev /\
    config m !! "production" = Some prod /\
    config m !! "testing" = Some test /\
    getattr dev "DEBUG" = Some (VBool true) /\
    getattr prod "DEBUG" = Some (VBool false) /\
    getattr test "DEBUG" = None /\
    getattr test "TESTING" = Some (VBool true).
Proof.
  destruct (debug_and_testing_flags (sample_world ∅))
    as (m & dev & prod & test & Himp & Hdev & _ & Hprod & Htest
        & H1 & H2 & H3 & H4 & _); [reflexivity|].
  exists m, dev, prod, test. split; [exact Himp|]. split; [exact Hdev|].
  split; [exact Hprod|]. split; [exact Htest|]. split; [exact H1|].
  split; [exact H2|]. split; [exact H3|]. exact H4.
Defined.

Lemma sample_config_mini : sample_config !! "mini" = Some sample_class.
Proof. apply lookup_singleton_eq. Qed.

Lemma sample_class_address : is_Some (getattr sample_class "SQLALCHEMY_DATABASE_URI").
Proof. by eexists. Qed.

Lemma settings_are_upper_case_attributes_witness :
  exists a w',
    create_app sample_config (Some "mini") (sample_world ∅) = (Ok a, w') /\
    settings a w' "SQLALCHEMY_DATABASE_URI" = Some (SValue (VStr "sqlite://")) /\
    settings a w' "note" = None.
Proof.
  destruct (settings_are_upper_case_attributes sample_config "mini" sample_class
              (sample_world ∅) sample_config_mini sample_class_address)
    as (a & w' & Hrun & Hupper & Hlower).
  exists a, w'. split; [exact Hrun|]. split.
  - apply (Hupper "SQLALCHEMY_DATABASE_URI" (VStr "sqlite://")); reflexivity.
  - apply (Hlower "note"); [reflexivity|by eexists].
Defined.



Lemma settings_fixed_at_import_witness :
  exists m a1 w1 a2 w2,
    import_config (sample_world ∅) = (Ok m, import_world (sample_world ∅)) /\
    create_app (config m) (Some "development") (import_world (sample_world ∅))
      = (Ok a1, w1) /\
    create_app (config m) (Some "development")
      (with_environ sample_env (import_world (sample_world ∅))) = (Ok a2, w2) /\
    settings a2 w2 "LOG_LEVEL" = settings a1 w1 "LOG_LEVEL".
Proof.
  destruct (settings_fixed_at_import (sample_world ∅) "development" sample_env)
    as (m & cls & a1 & w1 & a2 & w2 & Himp & Hcls & H1 & H2 & Hsame);
    [reflexivity|apply development_profile|].
  exists m, a1, w1, a2, w2. split; [exact Himp|]. split; [exact H1|].
  split; [exact H2|]. apply Hsame; [reflexivity|].
  destruct (profile_table _ _ _ Himp) as (Hdev & _). rewrite Hdev in Hcls.
  injection Hcls as <-. rewrite (development_log_level _ _ _ Himp). by eexists.
Defined.

Lemma login_manager_configured_witness :
  exists m a w' lm,
    start_app (Some "testing") (sample_world ∅) = (Ok (m, a), w') /\
    app_login_manager a = Some lm /\
    login_view lm = Some "auth.login" /\
    login_message_category lm = "info".
Proof.
  destruct (login_manager_configured (sample_world ∅) "testing")
    as (m & a & w' & lm & Hstart & Hlm & Hview & _ & Hcat & _);
    [reflexivity|apply testing_profile|].
  exists m, a, w', lm. split; [exact Hstart|]. split; [exact Hlm|].
  split; [exact Hview|exact Hcat].
Defined.


Lemma origins_count_witness :
  exists m items,
    import_config (sample_world tuned_env)
      = (Ok m, import_world (sample_world tuned_env)) /\
    heap (import_world (sample_world tuned_env)) !! 0%nat = Some (OList items) /\
    items = [VStr ""].
Proof.
  destruct (origins_count (sample_world tuned_env))
    as (m & items & Himp & _ & Hheap & _ & Hempty & _); [reflexivity|].
  exists m, items. split; [exact Himp|]. split; [exact Hheap|].
  apply Hempty. reflexivity.
Defined.

